(** * Novus gateway: a shallow embedding of [novus/api/gateway/gateway.py]

    The file follows the layout of the Python module: first the values and
    library objects the module manipulates (JSON values, websocket messages,
    exceptions, tasks), then [GatewayShard] and [GatewayConnection], each in a
    module of its name.  Coroutines are written in state-passing style over a
    [World]; what the event loop, the network and the other tasks do at an
    [await] is supplied as an explicit script, so every definition computes. *)

From Stdlib Require Import ZArith List String Ascii Bool Lia Strings.Byte QArith
  DecimalString.
From stdpp Require Import base gmap strings list.

Set Warnings "-register-all".

Close Scope Q_scope.
Local Open Scope string_scope.
Local Open Scope list_scope.
Local Open Scope Z_scope.

(** ** Python values *)

(** What [json.loads] produces and [json.dumps] consumes.  [JNull] is
    Python's [None]. *)
Inductive json : Type :=
| JNull
| JBool (b : bool)
| JInt (z : Z)
| JStr (s : string)
| JList (l : list json)
| JDict (kv : list (string * json)).

Module Py.

(** Truth value of an object, as [if x:] and [x or y] use it. *)
Definition truthy (v : json) : bool :=
  match v with
  | JNull => false
  | JBool b => b
  | JInt z => negb (z =? 0)
  | JStr s => negb (String.eqb s "")
  | JList l => match l with [] => false | _ => true end
  | JDict kv => match kv with [] => false | _ => true end
  end.

(** [x is True] and [x is False]. *)
Definition is_True (v : json) : bool :=
  match v with JBool true => true | _ => false end.
Definition is_False (v : json) : bool :=
  match v with JBool false => true | _ => false end.

(** [x == "literal"] for a string literal. *)
Definition eq_str (v : json) (lit : string) : bool :=
  match v with JStr s => String.eqb s lit | _ => false end.

(** First binding of a key in a dict literal or parsed object. *)
Fixpoint assoc (k : string) (kv : list (string * json)) : option json :=
  match kv with
  | [] => None
  | (k', v) :: rest => if String.eqb k k' then Some v else assoc k rest
  end.

(** [d.get(k)]: [None] when the key is missing. *)
Definition dict_get (k : string) (kv : list (string * json)) : json :=
  match assoc k kv with Some v => v | None => JNull end.

(** [buf[-n:]]: the last [n] items, the whole sequence when it is shorter. *)
Definition last_slice {A} (n : nat) (buf : list A) : list A :=
  drop (length buf - n)%nat buf.

(** [x or y] on strings, with [None] as a possible left operand. *)
Definition str_or (x : option string) (y : string) : string :=
  match x with
  | Some s => if String.eqb s "" then y else s
  | None => y
  end.

Definition of_option (o : option string) : json :=
  match o with Some s => JStr s | None => JNull end.

End Py.

(** Equality of byte strings, as [bytearray == bytes]. *)
Fixpoint bytes_eqb (a b : list byte) : bool :=
  match a, b with
  | [], [] => true
  | x :: a', y :: b' => Byte.eqb x y && bytes_eqb a' b'
  | _, _ => false
  end.

(** The zlib sync-flush suffix [b"\x00\x00\xff\xff"]. *)
Definition ZLIB_SUFFIX : list byte := [x00; x00; xff; xff].

(** ** Exceptions *)

(** The exception classes that can travel through the module.  The two
    gateway classes come from [_errors]; [GatewayException] carries the
    [reconnect] attribute [messages] reads. *)
Inductive Exn : Type :=
| GatewayClose
| GatewayException (reconnect : bool)
| ValueError
| KeyError
| TypeError
| MemoryError
| TimeoutError
| CancelledError
| ZlibError
| JSONDecodeError
| UnicodeDecodeError
| OSError.

(** [except Exception]: everything but [CancelledError], which derives from
    [BaseException]. *)
Definition is_Exception (e : Exn) : bool :=
  match e with CancelledError => false | _ => true end.

(** [except ValueError]: the class and its subclasses. *)
Definition is_ValueError (e : Exn) : bool :=
  match e with
  | ValueError | JSONDecodeError | UnicodeDecodeError => true
  | _ => false
  end.

Definition is_MemoryError (e : Exn) : bool :=
  match e with MemoryError => true | _ => false end.

Definition is_CancelledError (e : Exn) : bool :=
  match e with CancelledError => true | _ => false end.

(** Outcome of running a coroutine against a finite script: it returned,
    raised, or is still suspended at an [await] when the script ends. *)
Inductive Res (A : Type) : Type :=
| Ret (a : A)
| Raise (e : Exn)
| Pending.
Arguments Ret {A} a.
Arguments Raise {A} e.
Arguments Pending {A}.

(** ** Gateway opcodes *)

Module GatewayOpcode.
Inductive t : Type :=
| dispatch
| heartbeat
| identify
| presence
| voice_state
| resume
| reconnect
| request_members
| invalidate_session
| hello
| heartbeat_ack.
End GatewayOpcode.

(** ** Websocket messages ([aiohttp.WSMessage]) *)

Inductive WSMsgType : Type :=
| TEXT | BINARY | PING | PONG | CLOSE | CLOSING | CLOSED | ERROR.

(** [data.data]: bytes for a binary frame, a string for a text frame, the
    close code for a close frame, [None] otherwise. *)
Inductive WSData : Type :=
| DataBytes (b : list byte)
| DataStr (s : string)
| DataInt (code : Z)
| DataNone.

Record WSMessage : Type := { msg_type : WSMsgType; msg_data : WSData }.

(** One [await self.socket.receive()]: a message, or an exception. *)
Inductive RecvEvent : Type :=
| Recv (m : WSMessage)
| RecvRaises (e : Exn).

Definition binary_frame (b : list byte) : RecvEvent :=
  Recv {| msg_type := BINARY; msg_data := DataBytes b |}.
Definition text_frame (s : string) : RecvEvent :=
  Recv {| msg_type := TEXT; msg_data := DataStr s |}.

(** [type(data_bytes) is bytes] *)
Definition is_bytes (d : WSData) : bool :=
  match d with DataBytes _ => true | _ => false end.

(** ** What the module imports

    The libraries ([zlib], [json], [platform]) and the two sibling modules
    that are not part of this development ([enums.GatewayOpcode],
    [_errors]) are taken as a record of functions. *)
Record Runtime : Type := {
  (** [decompressobj.decompress(chunk)]: the output depends on every chunk
      this decompression object was fed before. *)
  zlib_decompress : list (list byte) -> list byte -> Exn + list byte;
  (** [bytes.decode()] *)
  bytes_decode : list byte -> Exn + string;
  (** [json.loads] on a string *)
  json_loads : string -> Exn + json;
  (** [GatewayOpcode(value)] and [opcode.value] *)
  opcode_of_value : json -> Exn + GatewayOpcode.t;
  opcode_value : GatewayOpcode.t -> Z;
  (** [GatewayException.all_exceptions[code]().reconnect], [None] when the
      code has no entry *)
  all_exceptions : Z -> option bool;
  (** [GatewayException().reconnect] *)
  default_reconnect : bool;
  (** whether [GatewayClose] derives from [GatewayException] *)
  close_is_gateway_exception : bool;
  (** [platform.system()] *)
  platform_system : string;
}.

(** ** Tasks *)

(** The coroutines the module hands to [asyncio.create_task]. *)
Inductive Coro : Type :=
| coro_heartbeat (heartbeat_interval : json) (jitter : bool)
| coro_message_handler
| coro_reconnect
| coro_connect (reconnect_arg : json)
| coro_handle_dispatch (event_name : json) (message : json).

Record Task : Type := {
  task_coro : Coro;
  task_done : bool;            (* [task.done()] *)
  task_cancelling : bool;      (* [task.cancel()] was called *)
}.

Definition new_task (c : Coro) : Task :=
  {| task_coro := c; task_done := false; task_cancelling := false |}.

Definition cancel (t : Task) : Task :=
  {| task_coro := task_coro t; task_done := task_done t;
     task_cancelling := true |}.

(** ** The websocket and what goes over it *)

Record ClientWebSocketResponse : Type := {
  ws_url_of : string;
  closed : bool;
}.

Inductive WireEvent : Type :=
| ws_connect (url : string)
| send_str (envelope : json)
| ws_close (code : Z).

(** ** GatewayShard *)

Module GatewayShard.

(** The attributes [__init__] sets.  The three [asyncio.Event] attributes are
    never rebound, so each is kept as its flag; the events of [chunk_event]
    are created on demand and handed to callers, so they live in the
    [events] store of the [World] and the dict holds their addresses. *)
Record t : Type := mk {
  token : option string;  (* [self.parent._token] *)
  ws_url : string;
  state : string;
  shard_id : Z;
  shard_count : Z;
  intents : Z;  (* [self.intents.value] *)
  connecting : bool;  (* an [asyncio.Event], as its flag *)
  ready_received : bool;
  heartbeat_received : bool;
  socket : option ClientWebSocketResponse;
  _buffer : list byte;
  _zlib : list (list byte);  (* chunks fed to the current [decompressobj] *)
  heartbeat_task : option Task;
  message_task : option Task;
  sequence : json;
  resume_url : string;
  session_id : json;
  chunk_counter : gmap string Z;
  chunk_groups : gmap string (list json);
  chunk_event : gmap string nat;  (* nonce to the address of its event *)
  running_tasks : list Task;  (* distinct objects, in insertion order *)
}.

(** Attribute assignment, [self.x = v]. *)
Definition set_state (v : string) (s : t) : t :=
  mk (token s) (ws_url s) v (shard_id s) (shard_count s) (intents s)
     (connecting s) (ready_received s) (heartbeat_received s) (socket s)
     (_buffer s) (_zlib s) (heartbeat_task s) (message_task s) (sequence s)
     (resume_url s) (session_id s) (chunk_counter s) (chunk_groups s)
     (chunk_event s) (running_tasks s).
Definition set_connecting (v : bool) (s : t) : t :=
  mk (token s) (ws_url s) (state s) (shard_id s) (shard_count s) (intents s) v
     (ready_received s) (heartbeat_received s) (socket s) (_buffer s) (_zlib
     s) (heartbeat_task s) (message_task s) (sequence s) (resume_url s)
     (session_id s) (chunk_counter s) (chunk_groups s) (chunk_event s)
     (running_tasks s).
Definition set_ready_received (v : bool) (s : t) : t :=
  mk (token s) (ws_url s) (state s) (shard_id s) (shard_count s) (intents s)
     (connecting s) v (heartbeat_received s) (socket s) (_buffer s) (_zlib s)
     (heartbeat_task s) (message_task s) (sequence s) (resume_url s)
     (session_id s) (chunk_counter s) (chunk_groups s) (chunk_event s)
     (running_tasks s).
Definition set_heartbeat_received (v : bool) (s : t) : t :=
  mk (token s) (ws_url s) (state s) (shard_id s) (shard_count s) (intents s)
     (connecting s) (ready_received s) v (socket s) (_buffer s) (_zlib s)
     (heartbeat_task s) (message_task s) (sequence s) (resume_url s)
     (session_id s) (chunk_counter s) (chunk_groups s) (chunk_event s)
     (running_tasks s).
Definition set_socket (v : option ClientWebSocketResponse) (s : t) : t :=
  mk (token s) (ws_url s) (state s) (shard_id s) (shard_count s) (intents s)
     (connecting s) (ready_received s) (heartbeat_received s) v (_buffer s)
     (_zlib s) (heartbeat_task s) (message_task s) (sequence s) (resume_url s)
     (session_id s) (chunk_counter s) (chunk_groups s) (chunk_event s)
     (running_tasks s).
Definition set_buffer (v : list byte) (s : t) : t :=
  mk (token s) (ws_url s) (state s) (shard_id s) (shard_count s) (intents s)
     (connecting s) (ready_received s) (heartbeat_received s) (socket s) v
     (_zlib s) (heartbeat_task s) (message_task s) (sequence s) (resume_url s)
     (session_id s) (chunk_counter s) (chunk_groups s) (chunk_event s)
     (running_tasks s).
Definition set_zlib (v : list (list byte)) (s : t) : t :=
  mk (token s) (ws_url s) (state s) (shard_id s) (shard_count s) (intents s)
     (connecting s) (ready_received s) (heartbeat_received s) (socket s)
     (_buffer s) v (heartbeat_task s) (message_task s) (sequence s)
     (resume_url s) (session_id s) (chunk_counter s) (chunk_groups s)
     (chunk_event s) (running_tasks s).
Definition set_heartbeat_task (v : option Task) (s : t) : t :=
  mk (token s) (ws_url s) (state s) (shard_id s) (shard_count s) (intents s)
     (connecting s) (ready_received s) (heartbeat_received s) (socket s)
     (_buffer s) (_zlib s) v (message_task s) (sequence s) (resume_url s)
     (session_id s) (chunk_counter s) (chunk_groups s) (chunk_event s)
     (running_tasks s).
Definition set_message_task (v : option Task) (s : t) : t :=
  mk (token s) (ws_url s) (state s) (shard_id s) (shard_count s) (intents s)
     (connecting s) (ready_received s) (heartbeat_received s) (socket s)
     (_buffer s) (_zlib s) (heartbeat_task s) v (sequence s) (resume_url s)
     (session_id s) (chunk_counter s) (chunk_groups s) (chunk_event s)
     (running_tasks s).
Definition set_sequence (v : json) (s : t) : t :=
  mk (token s) (ws_url s) (state s) (shard_id s) (shard_count s) (intents s)
     (connecting s) (ready_received s) (heartbeat_received s) (socket s)
     (_buffer s) (_zlib s) (heartbeat_task s) (message_task s) v (resume_url
     s) (session_id s) (chunk_counter s) (chunk_groups s) (chunk_event s)
     (running_tasks s).
Definition set_chunk_counter (v : gmap string Z) (s : t) : t :=
  mk (token s) (ws_url s) (state s) (shard_id s) (shard_count s) (intents s)
     (connecting s) (ready_received s) (heartbeat_received s) (socket s)
     (_buffer s) (_zlib s) (heartbeat_task s) (message_task s) (sequence s)
     (resume_url s) (session_id s) v (chunk_groups s) (chunk_event s)
     (running_tasks s).
Definition set_chunk_groups (v : gmap string (list json)) (s : t) : t :=
  mk (token s) (ws_url s) (state s) (shard_id s) (shard_count s) (intents s)
     (connecting s) (ready_received s) (heartbeat_received s) (socket s)
     (_buffer s) (_zlib s) (heartbeat_task s) (message_task s) (sequence s)
     (resume_url s) (session_id s) (chunk_counter s) v (chunk_event s)
     (running_tasks s).
Definition set_chunk_event (v : gmap string nat) (s : t) : t :=
  mk (token s) (ws_url s) (state s) (shard_id s) (shard_count s) (intents s)
     (connecting s) (ready_received s) (heartbeat_received s) (socket s)
     (_buffer s) (_zlib s) (heartbeat_task s) (message_task s) (sequence s)
     (resume_url s) (session_id s) (chunk_counter s) (chunk_groups s) v
     (running_tasks s).
Definition set_running_tasks (v : list Task) (s : t) : t :=
  mk (token s) (ws_url s) (state s) (shard_id s) (shard_count s) (intents s)
     (connecting s) (ready_received s) (heartbeat_received s) (socket s)
     (_buffer s) (_zlib s) (heartbeat_task s) (message_task s) (sequence s)
     (resume_url s) (session_id s) (chunk_counter s) (chunk_groups s)
     (chunk_event s) v.

(** [__init__].  [Route.WS_BASE] is [ws_base]. *)
Definition init (token : option string) (ws_base : string) (shard_id : Z)
    (shard_count : Z) (intents : Z) : t :=
  let ws_url :=
    String.append ws_base "?v=10&encoding=json&compress=zlib-stream" in
  {| token := token;
     ws_url := ws_url;
     connecting := false;
     ready_received := false;
     heartbeat_received := false;
     state := "Closed";
     shard_id := shard_id;
     shard_count := shard_count;
     intents := intents;
     socket := None;
     _buffer := [];
     _zlib := [];
     heartbeat_task := None;
     message_task := None;
     sequence := JNull;
     resume_url := ws_url;
     session_id := JNull;
     chunk_counter := ∅;
     chunk_groups := ∅;
     chunk_event := ∅;
     running_tasks := [] |}.


(** The shard together with the objects it shares with the rest of the
    process: the [asyncio.Event] store and the record of what was done on the
    network. *)
Record World : Type := {
  self : t;
  events : list bool;
  wire : list WireEvent;
}.

Definition with_self (f : t -> t) (w : World) : World :=
  {| self := f (self w); events := events w; wire := wire w |}.

Definition on_wire (e : WireEvent) (w : World) : World :=
  {| self := self w; events := events w; wire := wire w ++ [e] |}.

(** [asyncio.Event()]: a new object, flag unset; its address is returned. *)
Definition new_event (w : World) : nat * World :=
  (length (events w),
   {| self := self w; events := events w ++ [false]; wire := wire w |}).

(** The socket is there and open: what [send] and [receive] insist on. *)
Definition socket_open (w : World) : bool :=
  match socket (self w) with
  | Some ws => negb (closed ws)
  | None => false
  end.

(** One of the three attributes [_connect] fills in is still [None]. *)
Definition not_started (s : t) : bool :=
  match heartbeat_task s, socket s, message_task s with
  | Some _, Some _, Some _ => false
  | _, _, _ => true
  end.

(** Between [w] and [w'] the record of the network only grew, and every
    envelope written in between satisfies [P]. *)
Definition sent_between (w w' : World) (P : json -> Prop) : Prop :=
  exists added,
    wire w' = wire w ++ added
    /\ forall envelope, In (send_str envelope) added -> P envelope.


(** Reading a stretch of the network record against the socket: a
    websocket is opened only when none is open, closed only when one is, and
    written to only when one is.  The result is whether a socket is open at
    the end, or [None] when the stretch breaks one of the three. *)
Fixpoint replay (is_open : bool) (added : list WireEvent) : option bool :=
  match added with
  | [] => Some is_open
  | ws_connect _ :: later => if is_open then None else replay true later
  | ws_close _ :: later => if is_open then replay false later else None
  | send_str _ :: later => if is_open then replay true later else None
  end.

(** The record of the network over a stretch: it respects the socket, and
    every websocket it opens is opened on [url]. *)
Definition orderly (url : string) (w w' : World) : Prop :=
  exists added,
    wire w' = wire w ++ added
    /\ replay (socket_open w) added = Some (socket_open w')
    /\ forall url', In (ws_connect url') added -> url' = url.

(** Where [_connect] can leave the shard when it returns: ready, or sent
    away while waiting for the HELLO. *)
Definition reached_ready (w : World) : Prop :=
  state (self w) = "Ready"
  /\ connecting (self w) = false
  /\ ready_received (self w) = true
  /\ socket_open w = true
  /\ (exists heartbeat_interval jitter,
        heartbeat_task (self w)
        = Some (new_task (coro_heartbeat heartbeat_interval jitter)))
  /\ message_task (self w) = Some (new_task coro_message_handler).

Definition left_at_hello (w : World) : Prop :=
  state (self w) = "Waiting for HELLO"
  /\ connecting (self w) = true
  /\ socket_open w = true.

(** Coroutines: state passing with exceptions. *)
Definition M (A : Type) : Type := World -> Res A * World.

Definition ret {A} (a : A) : M A := fun w => (Ret a, w).
Definition bind {A B} (m : M A) (k : A -> M B) : M B := fun w =>
  match m w with
  | (Ret a, w') => k a w'
  | (Raise e, w') => (Raise e, w')
  | (Pending, w') => (Pending, w')
  end.

(** A decoded gateway message: [(opcode, t, s, d)]. *)
Definition Message : Type := GatewayOpcode.t * json * json * json.


Section WithRuntime.
Variable rt : Runtime.

(** [send]: fails loudly without an open socket, otherwise writes the
    [{op, d}] envelope. *)
Definition send (opcode : GatewayOpcode.t) (data : option json) : M unit :=
  fun w =>
  match socket (self w) with
  | None => (Raise ValueError, w)
  | Some ws =>
      if closed ws then (Raise ValueError, w)
      else
        let sendable :=
          JDict (("op", JInt (opcode_value rt opcode))
                 :: match data with Some d => [("d", d)] | None => [] end) in
        (Ret tt, on_wire (send_str sendable) w)
  end.

(** [isinstance(e, GatewayException)], as [except GatewayException] tests. *)
Definition is_GatewayException (e : Exn) : bool :=
  match e with
  | GatewayException _ => true
  | GatewayClose => close_is_gateway_exception rt
  | _ => false
  end.

(** The tuple [receive] builds from the parsed object:
    [(GatewayOpcode(parsed["op"]), parsed.get("t"), parsed.get("s"),
    parsed.get("d"))]. *)
Definition message_of_parsed (parsed : json) : Exn + Message :=
  match parsed with
  | JDict kv =>
      match Py.assoc "op" kv with
      | None => inl KeyError
      | Some v =>
          match opcode_of_value rt v with
          | inl e => inl e
          | inr op =>
              inr (op, Py.dict_get "t" kv, Py.dict_get "s" kv,
                   Py.dict_get "d" kv)
          end
      end
  | _ => inl TypeError
  end.

(** The [try] block that decodes and parses: bytes are decoded first, a
    string goes to [json.loads] as it is, anything else is rejected by
    [json.loads]. *)
Definition decode_and_load (decompressed : WSData) : Exn + json :=
  match decompressed with
  | DataBytes b =>
      match bytes_decode rt b with
      | inl e => inl e
      | inr decoded => json_loads rt decoded
      end
  | DataStr decoded => json_loads rt decoded
  | _ => inl TypeError
  end.

(** [receive].  Every path through the body of its [while True] returns or
    raises, so one call awaits [self.socket.receive()] once: it takes the
    head of [inbox], the outcomes of the successive socket reads, and hands
    back the rest. *)
Definition receive (inbox : list RecvEvent) (w : World)
  : Res (option Message) * World * list RecvEvent :=
  match socket (self w) with
  | None => (Raise ValueError, w, inbox)
  | Some ws =>
  if closed ws then (Raise ValueError, w, inbox) else
  match inbox with
  | [] => (Pending, w, [])
  | RecvRaises e :: rest =>
      if is_GatewayException e then (Raise e, w, rest)
      else if is_Exception e then (Ret None, w, rest)
      else (Raise e, w, rest)
  | Recv data :: rest =>
      match msg_type data with
      | ERROR => (Ret None, w, rest)
      | CLOSING => (Raise GatewayClose, w, rest)
      | CLOSE =>
          match msg_data data with
          | DataInt code =>
              match all_exceptions rt code with
              | Some r => (Raise (GatewayException r), w, rest)
              | None => (Raise KeyError, w, rest)
              end
          | _ => (Raise KeyError, w, rest)
          end
      | CLOSED => (Raise (GatewayException (default_reconnect rt)), w, rest)
      | _ =>
          (* Load data into the buffer if we need to *)
          let data_bytes := msg_data data in
          let w1 :=
            match data_bytes with
            | DataBytes b => with_self (fun s => set_buffer (_buffer s ++ b) s) w
            | _ => w
            end in
          (* See if we have a complete message now *)
          let complete_message_received :=
            bytes_eqb (Py.last_slice 4 (_buffer (self w1))) ZLIB_SUFFIX
            || negb (is_bytes data_bytes) in
          if negb complete_message_received then (Ret None, w1, rest) else
          (* Deal with our complete data *)
          let '(decompressed, w2) :=
            match data_bytes with
            | DataBytes _ =>
                let buf := _buffer (self w1) in
                (match zlib_decompress rt (_zlib (self w1)) buf with
                 | inr out => inr (DataBytes out)
                 | inl e => inl e
                 end,
                 with_self (fun s => set_zlib (_zlib s ++ [buf]) s) w1)
            | other => (inr other, w1)
            end in
          match decompressed with
          | inl e =>
              if is_Exception e then (Raise GatewayClose, w2, rest)
              else (Raise e, w2, rest)
          | inr decompressed =>
              let w3 := with_self (set_buffer []) w2 in
              (* Deal with our decompressed data *)
              match decode_and_load decompressed with
              | inl e =>
                  if is_MemoryError e
                  then (Raise GatewayClose, with_self (set_buffer []) w3, rest)
                  else (Raise e, w3, rest)
              | inr parsed =>
                  (* Return our parsed data :) *)
                  let w4 := with_self (set_buffer []) w3 in
                  match message_of_parsed parsed with
                  | inl e => (Raise e, w4, rest)
                  | inr m => (Ret (Some m), w4, rest)
                  end
              end
          end
      end
  end
  end.


(** [close]: cancels both tasks, closes an open socket (always with code 0,
    whatever [code] is; the call is bounded by one second and the socket
    counts as closed afterwards), and sets the state. *)
Definition close (code : Z) : M unit := fun w =>
  let w1 := with_self (fun s => set_heartbeat_task (cancel <$> heartbeat_task s) s) w in
  let w2 := with_self (fun s => set_message_task (cancel <$> message_task s) s) w1 in
  let w3 :=
    match socket (self w2) with
    | Some ws =>
        if closed ws then w2
        else on_wire (ws_close 0)
               (with_self
                  (set_socket
                     (Some {| ws_url_of := ws_url_of ws; closed := true |}))
                  w2)
    | None => w2
    end in
  (Ret tt, with_self (set_state "Closed") w3).

(** [identify] *)
Definition identify : M unit := fun w =>
  let s := self w in
  send GatewayOpcode.identify
    (Some (JDict
       [("token", Py.of_option (token s));
        ("properties",
         JDict [("os", JStr (platform_system rt));
                ("browser", JStr "Novus");
                ("device", JStr "Novus")]);
        ("shard", JList [JInt (shard_id s); JInt (shard_count s)]);
        ("intents", JInt (intents s))])) w.

(** [resume] *)
Definition resume : M unit := fun w =>
  let s := self w in
  send GatewayOpcode.resume
    (Some (JDict
       [("token", Py.of_option (token s));
        ("session_id", session_id s);
        ("seq", sequence s)])) w.



(** The HEARTBEAT envelope, carrying the stored sequence. *)
Definition heartbeat_envelope (w : World) : json :=
  JDict [("op", JInt (opcode_value rt GatewayOpcode.heartbeat));
         ("d", sequence (self w))].

(** The PRESENCE envelope for activities already turned into their payloads
    ([i._to_data()]) and a status given by its value. *)
Definition presence_envelope (activities : list json) (status : string)
  : json :=
  JDict [("op", JInt (opcode_value rt GatewayOpcode.presence));
         ("d", JDict [("activities", JList activities);
                      ("status", JStr status);
                      ("since", JNull);
                      ("afk", JBool false)])].

(** [change_presence] *)
Definition change_presence (activities : list json) (status : string)
  : M unit := fun w =>
  if negb (socket_open w) || negb (ready_received (self w)) then (Ret tt, w)
  else
    send GatewayOpcode.presence
      (Some (JDict [("activities", JList activities);
                    ("status", JStr status);
                    ("since", JNull);
                    ("afk", JBool false)])) w.

(** [str(i)] for an [int]. *)
Definition str_of_int (i : Z) : string :=
  DecimalString.NilZero.string_of_int (Z.to_int i).

(** [chunk_guild].  The result is the address of the new event, or [None]. *)
Definition chunk_guild (guild_id : Z) (query : string) (limit : Z)
    (user_ids : option (list Z)) (nonce : option string) : M (option nat) :=
  fun w =>
  let data :=
    [("guild_id", JStr (str_of_int guild_id)); ("limit", JInt limit)] in
  let data :=
    match user_ids with
    | None => data ++ [("query", JStr query)]
    | Some ids =>
        data ++ [("user_ids", JList (map (fun i => JStr (str_of_int i)) ids))]
    end in
  let '(data, event, w1) :=
    match nonce with
    | Some n =>
        if Py.truthy (JStr n) then
          let w_counter :=
            with_self (fun s => set_chunk_counter (<[n := 0]> (chunk_counter s)) s) w in
          let '(ev, w_event) := new_event w_counter in
          let w_event :=
            with_self (fun s => set_chunk_event (<[n := ev]> (chunk_event s)) s) w_event in
          let w_groups :=
            with_self (fun s => set_chunk_groups (<[n := []]> (chunk_groups s)) s) w_event in
          (data ++ [("nonce", JStr n)], Some ev, w_groups)
        else (data, None, w)
    | None => (data, None, w)
    end in
  bind (send GatewayOpcode.request_members (Some (JDict data)))
       (fun _ => ret event) w1.

(** [running] *)
Definition running (s : t) : bool :=
  (* Check we have/had a heartbeat *)
  match heartbeat_task s with
  | None => true
  | Some hb =>
  if negb (task_done hb) then true else
  (* Check we have an open socket *)
  match socket s with
  | None => true
  | Some ws =>
  if negb (closed ws) then true else
  (* Check we listened for messages *)
  match message_task s with
  | None => true
  | Some mt =>
  if negb (task_done mt) then true else
  (* See if we're connecting *)
  if connecting s then true else
  false
  end end end.

(** [self.running_tasks.add(asyncio.create_task(coro))] *)
Definition spawn (c : Coro) (w : World) : World :=
  with_self (fun s => set_running_tasks (running_tasks s ++ [new_task c]) s) w.

(** What the outside does during one attempt of [_connect]: opening the
    websocket fails, or it opens and then delivers [inbox] within the 60 s
    allowed for the HELLO (nothing, when [inbox] is empty), the identify
    semaphore is granted or not ([permit]), and READY/RESUMED is seen within
    60 s or not ([ready]). *)
Inductive ConnectEnv : Type :=
| ws_connect_raises (e : Exn)
| ws_connected (inbox : list RecvEvent) (permit : bool) (ready : bool).

(** How one pass through the body of [_connect] ends: with the call to
    itself for the next attempt, or with the coroutine finished. *)
Inductive Attempt : Type :=
| attempt_again
| attempt_over (r : Res unit).

(** [_connect], from its first line to the [try] that opens the websocket.
    The result carries the two locals the rest reads, [ws_url] and
    [reconnect].  [parent.get_session()] is taken to return, and the connect
    semaphore, with its 10 000 permits, to be granted: the state goes
    straight from "Pending connect" to "Connecting". *)
Definition _connect_prepare (ws_url : option string) (reconnect : json)
    (sleep_time : Q) (w : World) : string * json * World :=
  (* Clear caches *)
  let w := with_self (set_connecting true) w in
  let w := with_self (set_buffer []) w in
  let w := with_self (set_zlib []) w in
  (* Close socket if it's open at the moment *)
  let '(reconnect, w) :=
    if socket_open w then (JBool true, snd (close 0 w)) else (reconnect, w) in
  (* Open socket *)
  let w :=
    if Py.is_False reconnect then with_self (set_sequence JNull) w else w in
  let ws_url := Py.str_or ws_url (GatewayShard.ws_url (self w)) in
  let w :=
    if negb (Qeq_bool sleep_time 0)
    then with_self (set_state "Sleeping before connecting") w
    else w in
  let w :=
    with_self
      (set_state (if Py.truthy reconnect then "Reconnecting" else "Connecting"))
      w in
  (ws_url, reconnect, w).

(** [data["heartbeat_interval"]] *)
Definition heartbeat_interval_of (data : json) : Exn + json :=
  match data with
  | JDict kv =>
      match Py.assoc "heartbeat_interval" kv with
      | Some v => inr v
      | None => inl KeyError
      end
  | _ => inl TypeError
  end.

(** [_connect], from [session.ws_connect] to its last line, for one entry of
    the script. *)
Definition _connect_attempt (ws_url : string) (reconnect : json)
    (e : ConnectEnv) (w : World) : Attempt * World :=
  match e with
  | ws_connect_raises e =>
      if is_Exception e then (attempt_again, w)
      else (attempt_over (Raise e), w)
  | ws_connected inbox permit ready =>
      let w := on_wire (ws_connect ws_url) w in
      let w :=
        with_self
          (set_socket (Some {| ws_url_of := ws_url; closed := false |})) w in
      (* Get hello *)
      let w := with_self (set_state "Waiting for HELLO") w in
      match receive inbox w with
      | (Pending, w, _) =>
          (* [wait_for] raises [TimeoutError] after 60 s *)
          (attempt_again, w)
      | (Raise e, w, _) =>
          if is_Exception e then (attempt_again, w)
          else (attempt_over (Raise e), w)
      | (Ret None, w, _) => (attempt_over (Ret tt), w)
      | (Ret (Some (_, _, _, data)), w, _) =>
          (* Start heartbeat *)
          match heartbeat_interval_of data with
          | inl e => (attempt_over (Raise e), w)
          | inr heartbeat_interval =>
              let w :=
                with_self
                  (set_heartbeat_task
                     (Some (new_task
                              (coro_heartbeat heartbeat_interval
                                 (negb (Py.truthy reconnect)))))) w in
              (* Send identify or resume *)
              let w := with_self (set_ready_received false) w in
              let w :=
                with_self
                  (set_message_task (Some (new_task coro_message_handler))) w in
              let w :=
                with_self (set_state "Pending send IDENTIFY/RESUME") w in
              if negb permit then (attempt_over Pending, w) else
              match (if Py.truthy reconnect then resume else identify) w with
              | (Raise e, w) => (attempt_over (Raise e), w)
              | (Pending, w) => (attempt_over Pending, w)
              | (Ret _, w) =>
                  (* Wait for a ready or resume *)
                  let w :=
                    with_self (set_state "Waiting for READY/RESUMED") w in
                  if ready then
                    let w := with_self (set_ready_received true) w in
                    (* We are no longer connecting *)
                    let w := with_self (set_state "Ready") w in
                    (attempt_over (Ret tt), with_self (set_connecting false) w)
                  else
                    (attempt_again,
                     with_self
                       (fun s => set_message_task (cancel <$> message_task s) s)
                       w)
              end
          end
      end
  end.

(** [_connect].  Each retry is the coroutine calling itself, with the
    [ws_url] and [reconnect] it ended up with; it uses up one entry of the
    script. *)
Fixpoint _connect (env : list ConnectEnv) (ws_url : option string)
    (reconnect : json) (attempt : Z) (sleep_time : Q) (w : World)
  : Res unit * World :=
  let '(ws_url, reconnect, w) :=
    _connect_prepare ws_url reconnect sleep_time w in
  match env with
  | [] => (Pending, w)
  | e :: env' =>
      match _connect_attempt ws_url reconnect e w with
      | (attempt_again, w) =>
          _connect env' (Some ws_url) reconnect (attempt + 1) 0%Q w
      | (attempt_over r, w) => (r, w)
      end
  end.

(** [connect] *)
Definition connect (env : list ConnectEnv) (ws_url : option string)
    (reconnect : json) (sleep : bool) (w : World) : Res unit * World :=
  _connect env ws_url reconnect 1
    (if sleep then (inject_Z (shard_id (self w)) / 5)%Q else 0%Q) w.

(** [reconnect] *)
Definition reconnect (env : list ConnectEnv) : M unit := fun w =>
  let w := with_self (set_connecting true) w in
  bind (close 0)
       (fun _ => connect env (Some (resume_url (self w))) (JBool true) false)
       w.

(** *** Heartbeat *)

(** What happens around one transmission of the heartbeat: the ack is
    handled within 10 s, nothing is, the task is cancelled while it waits, or
    another task has closed the socket beforehand. *)
Inductive BeatEnv : Type :=
| ack_arrives
| no_ack
| cancelled
| socket_closes.

(** One turn of the [while True]: whether the sleep completed (or was
    cancelled), and the transmissions that follow. *)
Record CycleEnv : Type := { slept : bool; beats : list BeatEnv }.

(** [await asyncio.wait_for(self.heartbeat_received.wait(), timeout=10)] *)
Definition wait_for_heartbeat_received (b : BeatEnv) : M unit := fun w =>
  match b with
  | cancelled => (Raise CancelledError, w)
  | _ =>
      if heartbeat_received (self w) then (Ret tt, w)
      else
        match b with
        | ack_arrives => (Ret tt, with_self (set_heartbeat_received true) w)
        | _ => (Raise TimeoutError, w)
        end
  end.

Inductive ForResult : Type :=
| for_done                (* [break], or the range is used up *)
| for_return              (* [return] inside the loop *)
| for_raise (e : Exn)
| for_pending.

(** [for beat_attempt in range(1_000)]: the [try] with its handlers. *)
Fixpoint beat_attempts (env : list BeatEnv) (beat_attempt : Z) (w : World)
  : ForResult * World :=
  if 1000 <=? beat_attempt then (for_done, w) else
  match env with
  | [] => (for_pending, w)
  | b :: env' =>
      let w :=
        match b, socket (self w) with
        | socket_closes, Some ws =>
            with_self
              (set_socket (Some {| ws_url_of := ws_url_of ws; closed := true |}))
              w
        | _, _ => w
        end in
      match
        bind (send GatewayOpcode.heartbeat (Some (sequence (self w))))
             (fun _ => wait_for_heartbeat_received b) w
      with
      | (Raise e, w) =>
          if is_CancelledError e then
            if beat_attempt <=? 5 then beat_attempts env' (beat_attempt + 1) w
            else (for_return, spawn (coro_connect (JBool true)) w)
          else if is_ValueError e then
            (for_return, spawn (coro_connect (JBool true)) w)
          else (for_raise e, w)
      | (Ret _, w) => (for_done, w)
      | (Pending, w) => (for_pending, w)
      end
  end.

Fixpoint heartbeat_loop (env : list CycleEnv) (w : World) : Res unit * World :=
  match env with
  | [] => (Pending, w)
  | c :: env' =>
      if negb (slept c) then (Ret tt, w)
      else
        match beat_attempts (beats c) 0 w with
        | (for_done, w) => heartbeat_loop env' w
        | (for_return, w) => (Ret tt, w)
        | (for_raise e, w) => (Raise e, w)
        | (for_pending, w) => (Pending, w)
        end
  end.

(** [heartbeat].  The jitter only scales the first sleep. *)
Definition heartbeat (heartbeat_interval : json) (jitter : bool)
    (env : list CycleEnv) (w : World) : Res unit * World :=
  match
    match heartbeat_interval with
    | JInt i => Some i
    | JBool b => Some (Z.b2z b)
    | _ => None
    end
  with
  | None => (Raise TypeError, w)
  | Some i => if i <=? 0 then (Raise ValueError, w) else heartbeat_loop env w
  end.

(** *** The message loop *)

Section MessageLoop.

(** What awaiting [self.reconnect()] inside the message task amounts to.
    [reconnect] above is one instance; since [close] cancels the very task
    that is running it, the scheduler has a say, and the loop is stated for
    any behaviour. *)
Variable await_reconnect : M unit.

(** One [__anext__] of the [messages] generator: [Ret (Some d)] is a
    [yield d], [Ret None] the end of the generator.  Every turn of the
    [while True] that comes back to the top has read one entry of [inbox];
    [fuel] counts the turns. *)
Fixpoint messages_loop (fuel : nat) (inbox : list RecvEvent) (w : World)
  : Res (option Message) * World * list RecvEvent :=
  match fuel with
  | O => (Pending, w, inbox)
  | S fuel' =>
      (* Get data *)
      match receive inbox w with
      | (Raise e, w, inbox) =>
          match e with
          | GatewayClose =>
              match await_reconnect w with
              | (Ret _, w) => messages_loop fuel' inbox w
              | (Raise e', w) => (Raise e', w, inbox)
              | (Pending, w) => (Pending, w, inbox)
              end
          | GatewayException e_reconnect =>
              if negb e_reconnect then (Raise e, w, inbox)
              else (Ret None, spawn coro_reconnect w, inbox)
          | _ =>
              if is_Exception e then (Ret None, w, inbox)
              else (Raise e, w, inbox)
          end
      | (Pending, w, inbox) => (Pending, w, inbox)
      (* Yield data *)
      | (Ret None, w, inbox) => (Ret None, w, inbox)
      | (Ret (Some d), w, inbox) => (Ret (Some d), w, inbox)
      end
  end.

Definition messages (inbox : list RecvEvent) (w : World)
  : Res (option Message) * World * list RecvEvent :=
  messages_loop (S (length inbox)) inbox w.

(** The body of the [async for] in [message_handler]: [true] to go on with
    the next message, [false] for [return]. *)
Definition on_message (m : Message) (w : World) : bool * World :=
  let '(opcode, event_name, sequence, message) := m in
  match opcode with
  (* Ignore heartbeats *)
  | GatewayOpcode.heartbeat_ack =>
      (true, with_self (set_heartbeat_received true) w)
  (* Deal with dispatch *)
  | GatewayOpcode.dispatch =>
      let w :=
        if Py.eq_str event_name "READY" || Py.eq_str event_name "RESUMED"
        then with_self (set_ready_received true) w
        else w in
      let w := with_self (set_sequence sequence) w in
      (true, spawn (coro_handle_dispatch event_name message) w)
  (* Deal with reconnects *)
  | GatewayOpcode.reconnect =>
      let w := with_self (set_ready_received true) w in
      (false, spawn coro_reconnect w)
  (* Deal with invalid sesions *)
  | GatewayOpcode.invalidate_session =>
      let w := with_self (set_ready_received true) w in
      if Py.is_True message then (false, spawn coro_reconnect w)
      else
        let w := snd (close 1000 w) in
        (false, spawn (coro_connect message) w)
  (* Everything else *)
  | _ => (true, w)
  end.

Fixpoint message_handler_loop (fuel : nat) (inbox : list RecvEvent)
    (w : World) : Res unit * World * list RecvEvent :=
  match fuel with
  | O => (Pending, w, inbox)
  | S fuel' =>
      match messages inbox w with
      | (Ret (Some m), w, inbox) =>
          let '(go_on, w) := on_message m w in
          if go_on then message_handler_loop fuel' inbox w
          else (Ret tt, w, inbox)
      | (Ret None, w, inbox) => (Ret tt, w, inbox)
      | (Raise e, w, inbox) => (Raise e, w, inbox)
      | (Pending, w, inbox) => (Pending, w, inbox)
      end
  end.

(** [message_handler] *)
Definition message_handler (inbox : list RecvEvent) (w : World)
  : Res unit * World * list RecvEvent :=
  message_handler_loop (S (length inbox)) inbox w.

End MessageLoop.

End WithRuntime.
End GatewayShard.

(** ** GatewayConnection *)

Module GatewayConnection.

(** [asyncio.Semaphore]: the number of permits left. *)
Record LoggingSemaphore : Type := { _value : Z }.

(** The attributes of the connection.  [parent] is kept as the two things
    the shards take from it, the token and [Route.WS_BASE]; the two
    semaphores [connect] creates are kept next to the shards that share
    them. *)
Record t : Type := {
  token : option string;
  ws_base : string;
  intents : Z;
  shards : gmap Z GatewayShard.t;
  shard_count : Z;
  identify_semaphore : option LoggingSemaphore;
  connect_semaphore : option LoggingSemaphore;
}.

(** [__init__] *)
Definition init (token : option string) (ws_base : string) : t :=
  {| token := token; ws_base := ws_base; intents := 0; shards := ∅;
     shard_count := 1; identify_semaphore := None;
     connect_semaphore := None |}.

(** [shard_ids or list(range(shard_count))] *)
Definition shard_ids_or_range (shard_ids : option (list Z)) (shard_count : Z)
  : list Z :=
  match shard_ids with
  | Some (i :: ids) => i :: ids
  | _ => seqZ 0 shard_count
  end.

(** [connect], up to the point where the shards exist: the values are
    stored, the semaphores made ([asyncio.Semaphore] refuses a negative
    value), and one shard is created per id, a later one replacing an
    earlier one with the same id.  The [asyncio.gather] that follows starts
    every shard's own [connect]. *)
Definition connect (self : t) (shard_ids : option (list Z)) (shard_count : Z)
    (max_concurrency : Z) (intents : Z) : Exn + t :=
  if max_concurrency <? 0 then inl ValueError else
  let ids := shard_ids_or_range shard_ids shard_count in
  inr {| token := token self;
         ws_base := ws_base self;
         intents := intents;
         shards :=
           foldl
             (fun (shards : gmap Z GatewayShard.t) i =>
                <[i := GatewayShard.init (token self) (ws_base self) i
                         shard_count intents]> shards)
             ∅ ids;
         shard_count := shard_count;
         identify_semaphore := Some {| _value := max_concurrency |};
         connect_semaphore := Some {| _value := 10000 |} |}.

(** [any(shard.running for shard in self.shards.values())] *)
Definition any_running (self : t) : bool :=
  existsb GatewayShard.running (snd <$> map_to_list (shards self)).

(** [wait]: each entry of [polls] is the connection as it stands when the
    loop condition is evaluated, one second after the previous one. *)
Fixpoint wait (polls : list t) : Res unit :=
  match polls with
  | [] => Pending
  | self :: later => if any_running self then wait later else Ret tt
  end.

(** What [await shard.close()] does to one shard, and what it writes on that
    shard's socket. *)
Definition close_shard (s : GatewayShard.t) : GatewayShard.t * list WireEvent :=
  let w :=
    snd (GatewayShard.close 1000
           {| GatewayShard.self := s; GatewayShard.events := [];
              GatewayShard.wire := [] |}) in
  (GatewayShard.self w, GatewayShard.wire w).

(** [close]: every shard is closed in turn.  The result is the connection
    afterwards and, per shard, what was written on its socket. *)
Definition close (self : t) : t * gmap Z (list WireEvent) :=
  ({| token := token self;
      ws_base := ws_base self;
      intents := intents self;
      shards := (fun s => fst (close_shard s)) <$> shards self;
      shard_count := shard_count self;
      identify_semaphore := identify_semaphore self;
      connect_semaphore := connect_semaphore self |},
   (fun s => snd (close_shard s)) <$> shards self).

End GatewayConnection.

(** ** The identify permit, across shards

    [GatewayConnection.connect] gives every shard the same
    [identify_semaphore]; [GatewayShard._connect] sends its handshake inside
    [async with self.identify_semaphore.log(...)].  The shards run as tasks
    of one event loop, so the system moves by one shard taking one step at a
    time. *)
Module IdentifyPermit.










End IdentifyPermit.

(** ** A concrete runtime and concrete shards, for the examples

    The opcode numbers are the gateway's.  [zlib] is stood in for by a
    stream that checks its first byte the way zlib checks the compression
    method and then hands back what lies between the two-byte header and
    each sync-flush suffix; [json.loads] by a table of the documents the
    examples use, every other text being malformed. *)
Module Example.

Import GatewayOpcode.

Definition value_of_opcode (op : GatewayOpcode.t) : Z :=
  match op with
  | dispatch => 0 | heartbeat => 1 | identify => 2 | presence => 3
  | voice_state => 4 | resume => 6 | reconnect => 7 | request_members => 8
  | invalidate_session => 9 | hello => 10 | heartbeat_ack => 11
  end.

Definition opcode_of (v : json) : Exn + GatewayOpcode.t :=
  match v with
  | JInt 0 => inr dispatch | JInt 1 => inr heartbeat | JInt 2 => inr identify
  | JInt 3 => inr presence | JInt 4 => inr voice_state | JInt 6 => inr resume
  | JInt 7 => inr reconnect | JInt 8 => inr request_members
  | JInt 9 => inr invalidate_session | JInt 10 => inr hello
  | JInt 11 => inr heartbeat_ack
  | _ => inl ValueError
  end.

Definition stored_stream (fed : list (list byte)) (chunk : list byte)
  : Exn + list byte :=
  match concat fed ++ chunk with
  | x78 :: _ =>
      let body := match fed with [] => drop 2 chunk | _ => chunk end in
      inr (take (length body - 4) body)
  | _ => inl ZlibError
  end.

(** JSON text written with ['] where the document has a double quote. *)
Fixpoint json_text (s : string) : string :=
  match s with
  | EmptyString => EmptyString
  | String c rest =>
      String (if Ascii.eqb c "'"%char then Ascii.ascii_of_nat 34 else c)
             (json_text rest)
  end.

Definition hello_text : string :=
  json_text "{'op':10,'d':{'heartbeat_interval':41250}}".
Definition hello_value : json :=
  JDict [("op", JInt 10); ("d", JDict [("heartbeat_interval", JInt 41250)])].

Definition event_text (s : string) : string :=
  json_text
    (String.append "{'op':0,'t':'MESSAGE_CREATE','s':"
                   (String.append s ",'d':{}}")).
Definition event_value (s : Z) : json :=
  JDict [("op", JInt 0); ("t", JStr "MESSAGE_CREATE"); ("s", JInt s);
         ("d", JDict [])].

Definition invalidate_text : string := json_text "{'op':9,'d':false}".
Definition invalidate_value : json :=
  JDict [("op", JInt 9); ("d", JBool false)].

(** A document too large for the process, by convention of this table. *)
Definition huge_text : string := json_text "{'op':0,'d':['...']}".

Definition documents : list (string * (Exn + json)) :=
  [(hello_text, inr hello_value);
   (event_text "5", inr (event_value 5));
   (event_text "3", inr (event_value 3));
   (invalidate_text, inr invalidate_value);
   (huge_text, inl MemoryError)].

Fixpoint lookup_document (text : string)
    (table : list (string * (Exn + json))) : Exn + json :=
  match table with
  | [] => inl JSONDecodeError
  | (known, v) :: table' =>
      if String.eqb text known then v else lookup_document text table'
  end.

Definition rt : Runtime :=
  {| zlib_decompress := stored_stream;
     bytes_decode := fun b => inr (string_of_list_byte b);
     json_loads := fun text => lookup_document text documents;
     opcode_of_value := opcode_of;
     opcode_value := value_of_opcode;
     all_exceptions := fun code =>
       if code =? 4004 then Some false
       else if code =? 4000 then Some true
       else None;
     default_reconnect := true;
     close_is_gateway_exception := false;
     platform_system := "Linux" |}.



(** A shard as [__init__] leaves it, and the same with a session and an open
    socket. *)
Definition fresh : GatewayShard.t :=
  GatewayShard.init (Some "secret") "wss://gateway.discord.gg/" 0 1 513.

Definition fresh_world : GatewayShard.World :=
  {| GatewayShard.self := fresh; GatewayShard.events := [];
     GatewayShard.wire := [] |}.

Definition online : GatewayShard.t :=
  {| GatewayShard.token := Some "secret";
     GatewayShard.ws_url := GatewayShard.ws_url fresh;
     GatewayShard.state := "Ready";
     GatewayShard.shard_id := 0;
     GatewayShard.shard_count := 1;
     GatewayShard.intents := 513;
     GatewayShard.connecting := false;
     GatewayShard.ready_received := true;
     GatewayShard.heartbeat_received := false;
     GatewayShard.socket :=
       Some {| ws_url_of := GatewayShard.ws_url fresh; closed := false |};
     GatewayShard._buffer := [];
     GatewayShard._zlib := [];
     GatewayShard.heartbeat_task :=
       Some (new_task (coro_heartbeat (JInt 41250) true));
     GatewayShard.message_task := Some (new_task coro_message_handler);
     GatewayShard.sequence := JInt 7;
     GatewayShard.resume_url := GatewayShard.ws_url fresh;
     GatewayShard.session_id := JStr "abc";
     GatewayShard.chunk_counter := ∅;
     GatewayShard.chunk_groups := ∅;
     GatewayShard.chunk_event := ∅;
     GatewayShard.running_tasks := [] |}.

Definition online_world : GatewayShard.World :=
  {| GatewayShard.self := online; GatewayShard.events := [];
     GatewayShard.wire := [] |}.

(** The same session after its socket was closed. *)
Definition offline_world : GatewayShard.World :=
  snd (GatewayShard.close 1000 online_world).

(** A connection with two shards and one identify permit, as [connect]
    leaves it before the shards start. *)
Definition manager : GatewayConnection.t :=
  match
    GatewayConnection.connect
      (GatewayConnection.init (Some "secret") "wss://gateway.discord.gg/")
      None 2 1 513
  with
  | inr c => c
  | inl _ => GatewayConnection.init None ""
  end.

(** A binary frame as the stand-in stream expects it: header, text, suffix. *)
Definition compressed (text : string) : list byte :=
  [x78; x9c] ++ list_byte_of_string text ++ ZLIB_SUFFIX.

End Example.

(** * Properties *)

Import GatewayShard.

(** ** Reading frames *)

Lemma bytes_eqb_eq (a b : list byte) : bytes_eqb a b = true <-> a = b.
Proof.
  revert b; induction a as [|x a IH]; intros [|y b]; simpl; split;
    try congruence; try reflexivity.
  - intros [Hxy Hab]%andb_prop. apply Byte.byte_dec_bl in Hxy.
    apply IH in Hab. congruence.
  - intros [= -> ->]. apply andb_true_intro; split.
    + now apply Byte.byte_dec_lb.
    + now apply IH.
Qed.

Lemma bytes_eqb_neq (a b : list byte) : bytes_eqb a b = false <-> a <> b.
Proof.
  rewrite <- bytes_eqb_eq. destruct (bytes_eqb a b); split; congruence.
Qed.

(** Every way through [receive]: [H] is an equation on a call of it, [w]
    the shard and [inbox] what is there to read.  One goal is left per
    path, with the outcome, the shard and the rest of the inbox
    substituted. *)
Ltac receive_cases H w inbox :=
  unfold receive in H;
  destruct (socket (self w)) as [?ws|]; [destruct (closed ws)|];
  [| destruct inbox as [|[[?ty ?d]|?e] ?inbox]; [| destruct ty, d |] |];
  cbn -[Py.last_slice bytes_eqb ZLIB_SUFFIX] in H;
  repeat match type of H with
         | context [match ?x with _ => _ end] => destruct x
         | context [if ?x then _ else _] => destruct x
         end;
  injection H as <- <- <-.

(** [receive] on a binary frame that leaves the buffer short of the suffix. *)
Lemma receive_partial rt w b rest :
  socket_open w = true ->
  Py.last_slice 4 (_buffer (self w) ++ b) <> ZLIB_SUFFIX ->
  receive rt (binary_frame b :: rest) w
  = (Ret None, with_self (fun s => set_buffer (_buffer s ++ b) s) w, rest).
Proof.
  intros Hopen Hmark. unfold receive, socket_open in *.
  destruct (socket (self w)) as [ws|]; [|discriminate].
  destruct (closed ws); [discriminate|].
  cbn -[Py.last_slice bytes_eqb ZLIB_SUFFIX].
  apply bytes_eqb_neq in Hmark. now rewrite Hmark.
Qed.

Lemma receive_no_socket rt inbox w :
  socket_open w = false -> receive rt inbox w = (Raise ValueError, w, inbox).
Proof.
  unfold receive, socket_open. destruct (socket (self w)) as [ws|]; [|easy].
  now destruct (closed ws).
Qed.

(** C4: a binary frame makes [receive] return a message only if the buffer,
    with the frame appended, ends in [00 00 FF FF]; when it does not, the
    outcome is [None] (or the refusal to read from a missing socket), the
    decompression stream is left as it was, and the outcome is the same
    whatever [zlib] and [json] would have done: neither is consulted. *)
Theorem receive_emits_only_on_flush_marker rt w b rest r w' rest' :
  receive rt (binary_frame b :: rest) w = (r, w', rest') ->
  (forall m, r = Ret (Some m) ->
     Py.last_slice 4 (_buffer (self w) ++ b) = ZLIB_SUFFIX)
  /\ (Py.last_slice 4 (_buffer (self w) ++ b) <> ZLIB_SUFFIX ->
      (r = Ret None \/ r = Raise ValueError)
      /\ _zlib (self w') = _zlib (self w)
      /\ forall rt', receive rt' (binary_frame b :: rest) w = (r, w', rest')).
Proof.
  intros H. destruct (socket_open w) eqn:Hopen.
  - destruct (bytes_eqb (Py.last_slice 4 (_buffer (self w) ++ b)) ZLIB_SUFFIX)
      eqn:Hmark.
    + apply bytes_eqb_eq in Hmark. split; [auto | congruence].
    + apply bytes_eqb_neq in Hmark.
      rewrite (receive_partial rt w b rest Hopen Hmark) in H.
      injection H as <- <- <-. split; [discriminate|].
      intros _. repeat split; [now left|].
      intros rt'. now apply receive_partial.
  - rewrite (receive_no_socket rt _ w Hopen) in H. injection H as <- <- <-.
    split; [discriminate|]. intros _. repeat split; [now right|].
    intros rt'. now apply receive_no_socket.
Qed.

Lemma receive_emits_only_on_flush_marker_witness :
  Py.last_slice 4 (_buffer (self Example.online_world)
                   ++ Example.compressed Example.hello_text) = ZLIB_SUFFIX.
Proof.
  refine (proj1 (receive_emits_only_on_flush_marker Example.rt
                   Example.online_world
                   (Example.compressed Example.hello_text) [] _ _ _ eq_refl)
                _ eq_refl).
Defined.

(** C8: a binary frame that leaves the buffer short of the suffix makes
    [receive] return [None] after that one read (the later frames stay
    unread), [messages] then ends, and with it [message_handler]. *)
Theorem partial_binary_frame_ends_message_loop
    rt await_reconnect w b rest :
  socket_open w = true ->
  Py.last_slice 4 (_buffer (self w) ++ b) <> ZLIB_SUFFIX ->
  let w1 := with_self (fun s => set_buffer (_buffer s ++ b) s) w in
  receive rt (binary_frame b :: rest) w = (Ret None, w1, rest)
  /\ messages rt await_reconnect (binary_frame b :: rest) w
     = (Ret None, w1, rest)
  /\ message_handler rt await_reconnect (binary_frame b :: rest) w
     = (Ret tt, w1, rest).
Proof.
  intros Hopen Hmark w1.
  pose proof (receive_partial rt w b rest Hopen Hmark) as Hrecv.
  assert (Hmsgs : messages rt await_reconnect (binary_frame b :: rest) w
                  = (Ret None, w1, rest)).
  { unfold messages. cbn [messages_loop length]. now rewrite Hrecv. }
  repeat split; [exact Hrecv | exact Hmsgs |].
  unfold message_handler. cbn [message_handler_loop length].
  now rewrite Hmsgs.
Qed.

Lemma partial_binary_frame_ends_message_loop_witness :
  message_handler Example.rt (reconnect Example.rt [])
    [binary_frame [x78; x9c; "{"%byte];
     binary_frame (Example.compressed Example.hello_text)]
    Example.online_world
  = (Ret tt,
     with_self (set_buffer [x78; x9c; "{"%byte]) Example.online_world,
     [binary_frame (Example.compressed Example.hello_text)]).
Proof.
  refine (proj2 (proj2 (partial_binary_frame_ends_message_loop Example.rt
            (reconnect Example.rt []) Example.online_world
            [x78; x9c; "{"%byte]
            [binary_frame (Example.compressed Example.hello_text)]
            eq_refl _))).
  vm_compute. discriminate.
Defined.

(** ** The turn counters of the message loop are large enough *)

(** A read either is refused before anything is read, or finds nothing to
    read, or uses up exactly the first entry. *)
Lemma receive_consumes rt inbox w r w' rest :
  receive rt inbox w = (r, w', rest) ->
  (r = Raise ValueError /\ rest = inbox)
  \/ (r = Pending /\ rest = inbox)
  \/ (exists ev, inbox = ev :: rest).
Proof.
  intros H. receive_cases H w inbox; eauto.
Qed.

Lemma messages_loop_enough_fuel rt await_reconnect fuel1 :
  forall fuel2 inbox w,
    (length inbox < fuel1)%nat -> (length inbox < fuel2)%nat ->
    messages_loop rt await_reconnect fuel1 inbox w
    = messages_loop rt await_reconnect fuel2 inbox w.
Proof.
  induction fuel1 as [|fuel1 IH]; intros [|fuel2] inbox w H1 H2; try lia.
  cbn [messages_loop].
  destruct (receive rt inbox w) as [[r w'] rest] eqn:Hrecv.
  destruct r as [[m|]|e|]; try reflexivity.
  destruct e; try reflexivity.
  destruct (await_reconnect w') as [[[]| |] w'']; try reflexivity.
  apply receive_consumes in Hrecv as [[[=] _] | [[[=] _] | [ev ->]]].
  cbn [length] in H1, H2. apply IH; lia.
Qed.

(** A message that is yielded was read from [inbox]. *)
Lemma messages_loop_yield_shorter rt await_reconnect fuel :
  forall inbox w m w' rest,
    messages_loop rt await_reconnect fuel inbox w = (Ret (Some m), w', rest) ->
    (length rest < length inbox)%nat.
Proof.
  induction fuel as [|fuel IH]; intros inbox w m w' rest H; [discriminate|].
  cbn [messages_loop] in H.
  destruct (receive rt inbox w) as [[r w1] rest1] eqn:Hrecv.
  apply receive_consumes in Hrecv.
  destruct r as [[m1|]|e|]; try discriminate.
  - injection H as <- <- <-.
    destruct Hrecv as [[[=] _] | [[[=] _] | [ev ->]]]. cbn. lia.
  - destruct e; try discriminate.
    + destruct (await_reconnect w1) as [[[]| |] w2]; try discriminate.
      apply IH in H.
      destruct Hrecv as [[[=] _] | [[[=] _] | [ev ->]]]. cbn. lia.
    + match type of H with
      | context [if ?c then _ else _] => destruct c; discriminate
      end.
Qed.

Lemma message_handler_loop_enough_fuel rt await_reconnect fuel1 :
  forall fuel2 inbox w,
    (length inbox < fuel1)%nat -> (length inbox < fuel2)%nat ->
    message_handler_loop rt await_reconnect fuel1 inbox w
    = message_handler_loop rt await_reconnect fuel2 inbox w.
Proof.
  induction fuel1 as [|fuel1 IH]; intros [|fuel2] inbox w H1 H2; try lia.
  cbn [message_handler_loop].
  destruct (messages rt await_reconnect inbox w) as [[r w'] rest] eqn:Hmsgs.
  destruct r as [[m|]|e|]; try reflexivity.
  apply messages_loop_yield_shorter in Hmsgs.
  destruct (on_message m w') as [[] w'']; [|reflexivity].
  apply IH; lia.
Qed.

(** ** The connection: which shards exist and when [wait] returns *)

Lemma not_started_running s : not_started s = true -> running s = true.
Proof.
  unfold not_started, running.
  destruct (heartbeat_task s) as [hb|]; [|reflexivity].
  destruct (task_done hb); [|reflexivity]. cbn.
  destruct (socket s) as [ws|]; [|reflexivity].
  destruct (closed ws); [|reflexivity]. cbn.
  destruct (message_task s); [discriminate | reflexivity].
Qed.

Lemma any_running_of_shard (c : GatewayConnection.t) i s :
  GatewayConnection.shards c !! i = Some s -> running s = true ->
  GatewayConnection.any_running c = true.
Proof.
  intros Hi Hrun. unfold GatewayConnection.any_running.
  apply existsb_exists. exists s. split; [|exact Hrun].
  apply list_elem_of_In, list_elem_of_fmap. exists (i, s). split; [reflexivity|].
  now apply elem_of_map_to_list.
Qed.

(** C9: a shard whose heartbeat task, socket or message task is still
    [None] reports [running]; so does a shard straight from [__init__]; and
    [wait] does not return as long as every evaluation of its condition
    finds such a shard among those constructed. *)
Theorem running_before_start_blocks_wait (polls : list GatewayConnection.t) :
  Forall (fun c => exists i s,
            GatewayConnection.shards c !! i = Some s
            /\ not_started s = true) polls ->
  (forall s, heartbeat_task s = None \/ socket s = None
             \/ message_task s = None -> running s = true)
  /\ (forall token ws_base shard_id shard_count intents,
        running (init token ws_base shard_id shard_count intents) = true)
  /\ GatewayConnection.wait polls = Pending.
Proof.
  intros Hpolls. split; [|split].
  - intros s H. apply not_started_running. unfold not_started.
    destruct H as [-> | [H | H]]; [reflexivity | |].
    + rewrite H. now destruct (heartbeat_task s).
    + rewrite H. now destruct (heartbeat_task s), (socket s).
  - reflexivity.
  - induction Hpolls as [|c polls (i & s & Hi & Hs) _ IH]; [reflexivity|].
    cbn. rewrite (any_running_of_shard c i s Hi (not_started_running s Hs)).
    exact IH.
Qed.

Lemma foldl_insert_lookup {A} (f : Z -> A) (ids : list Z) (m : gmap Z A) i :
  foldl (fun (acc : gmap Z A) j => <[j := f j]> acc) m ids !! i
  = if bool_decide (i ∈ ids) then Some (f i) else m !! i.
Proof.
  revert m. induction ids as [|j ids IH]; intros m; cbn [foldl].
  - rewrite bool_decide_eq_false_2; [reflexivity | apply not_elem_of_nil].
  - rewrite IH. destruct (decide (i ∈ ids)) as [Hin|Hin].
    + rewrite !bool_decide_eq_true_2; [reflexivity | now right | exact Hin].
    + rewrite (bool_decide_eq_false_2 _ Hin).
      destruct (decide (i = j)) as [->|Hne].
      * rewrite lookup_insert_eq, bool_decide_eq_true_2; [reflexivity | now left].
      * rewrite lookup_insert_ne by congruence.
        rewrite bool_decide_eq_false_2; [reflexivity|].
        intros [?|?]%elem_of_cons; contradiction.
Qed.

Lemma running_before_start_blocks_wait_witness :
  GatewayConnection.wait [Example.manager; Example.manager] = Pending.
Proof.
  refine (proj2 (proj2 (running_before_start_blocks_wait
                          [Example.manager; Example.manager] _))).
  assert (H : exists i s,
             GatewayConnection.shards Example.manager !! i = Some s
             /\ not_started s = true).
  { exists 1, (init (Some "secret") "wss://gateway.discord.gg/" 1 2 513).
    split; reflexivity. }
  repeat constructor; exact H.
Defined.

(** C10: with an empty [shard_ids], [connect] does what it does with
    [None]: one shard for every index in [0, shard_count), and no other. *)
Theorem connect_empty_shard_ids_as_none
    (c0 : GatewayConnection.t) shard_count max_concurrency intents :
  0 <= max_concurrency ->
  exists c,
    GatewayConnection.connect c0 (Some []) shard_count max_concurrency intents
    = inr c
    /\ GatewayConnection.connect c0 None shard_count max_concurrency intents
       = inr c
    /\ forall i,
         GatewayConnection.shards c !! i
         = if bool_decide ((0 <= i) /\ (i < shard_count))
           then Some (init (GatewayConnection.token c0)
                           (GatewayConnection.ws_base c0) i shard_count intents)
           else None.
Proof.
  intros Hmax. unfold GatewayConnection.connect.
  assert ((max_concurrency <? 0) = false) as -> by lia.
  eexists. split; [reflexivity|]. split; [reflexivity|].
  intros i. cbn [GatewayConnection.shards GatewayConnection.shard_ids_or_range].
  rewrite foldl_insert_lookup, lookup_empty.
  destruct (decide ((0 <= i) /\ (i < shard_count))) as [Hi|Hi].
  - rewrite !bool_decide_eq_true_2; [reflexivity | exact Hi |].
    apply elem_of_seqZ. lia.
  - rewrite !bool_decide_eq_false_2; [reflexivity | exact Hi |].
    rewrite elem_of_seqZ. lia.
Qed.

Lemma connect_empty_shard_ids_as_none_witness :
  exists c,
    GatewayConnection.connect
      (GatewayConnection.init (Some "secret") "wss://gateway.discord.gg/")
      (Some []) 2 1 513 = inr c
    /\ GatewayConnection.shards c !! 1
       = Some (init (Some "secret") "wss://gateway.discord.gg/" 1 2 513)
    /\ GatewayConnection.shards c !! 2 = None.
Proof.
  destruct (connect_empty_shard_ids_as_none
              (GatewayConnection.init (Some "secret")
                 "wss://gateway.discord.gg/") 2 1 513 ltac:(lia))
    as (c & Hempty & _ & Hshards).
  exists c. split; [exact Hempty|].
  split; [exact (Hshards 1) | exact (Hshards 2)].
Defined.

(** ** Member chunks *)

Lemma send_open rt op d w :
  socket_open w = true ->
  send rt op (Some d) w
  = (Ret tt,
     on_wire (send_str (JDict [("op", JInt (opcode_value rt op)); ("d", d)])) w).
Proof.
  unfold send, socket_open. destruct (socket (self w)) as [ws|]; [|discriminate].
  now destruct (closed ws).
Qed.

Lemma send_not_open rt op d w :
  socket_open w = false -> send rt op d w = (Raise ValueError, w).
Proof.
  unfold send, socket_open. destruct (socket (self w)) as [ws|]; [|reflexivity].
  now destruct (closed ws).
Qed.

(** C7: with a nonce (a non-empty one; [if nonce:] takes the empty string
    for none) [chunk_guild] first records the request: counter 0, an empty
    group, and an event that did not exist before and is unset.  Then it
    sends REQUEST_MEMBERS with the nonce and returns that event.  The
    records are there even when the send is refused, so they are made
    before it.  Without a nonce it records nothing, creates no event, sends
    the command without a nonce and returns [None]. *)
Theorem chunk_guild_registers_iff_nonce
    rt guild_id query limit user_ids nonce w r w' :
  chunk_guild rt guild_id query limit user_ids nonce w = (r, w') ->
  let sent_with (has_nonce : option json) :=
    exists data,
      wire w'
      = wire w ++ [send_str
                     (JDict [("op", JInt (opcode_value rt
                                            GatewayOpcode.request_members));
                             ("d", JDict data)])]
      /\ Py.assoc "nonce" data = has_nonce
      /\ Py.assoc "guild_id" data = Some (JStr (str_of_int guild_id)) in
  match nonce with
  | Some n =>
      if String.eqb n "" then
        self w' = self w /\ events w' = events w
        /\ (if socket_open w then r = Ret None /\ sent_with None
            else r = Raise ValueError /\ wire w' = wire w)
      else
        let event := length (events w) in
        chunk_counter (self w') = <[n := 0]> (chunk_counter (self w))
        /\ chunk_groups (self w') = <[n := []]> (chunk_groups (self w))
        /\ chunk_event (self w') = <[n := event]> (chunk_event (self w))
        /\ events w' = events w ++ [false]
        /\ (if socket_open w then r = Ret (Some event) /\ sent_with (Some (JStr n))
            else r = Raise ValueError /\ wire w' = wire w)
  | None =>
      self w' = self w /\ events w' = events w
      /\ (if socket_open w then r = Ret None /\ sent_with None
          else r = Raise ValueError /\ wire w' = wire w)
  end.
Proof.
  intros H sent_with. subst sent_with. unfold chunk_guild in H.
  assert (Hplain : forall data,
    Py.assoc "nonce" data = None ->
    Py.assoc "guild_id" data = Some (JStr (str_of_int guild_id)) ->
    bind (send rt GatewayOpcode.request_members (Some (JDict data)))
         (fun _ => ret None) w = (r, w') ->
    self w' = self w /\ events w' = events w
    /\ (if socket_open w
        then r = Ret None
             /\ exists data,
                 wire w'
                 = wire w ++ [send_str
                     (JDict [("op", JInt (opcode_value rt
                                            GatewayOpcode.request_members));
                             ("d", JDict data)])]
                 /\ Py.assoc "nonce" data = None
                 /\ Py.assoc "guild_id" data
                    = Some (JStr (str_of_int guild_id))
        else r = Raise ValueError /\ wire w' = wire w)).
  { intros data Hn Hg Hb. unfold bind in Hb.
    destruct (socket_open w) eqn:Hopen.
    - rewrite send_open in Hb by exact Hopen. injection Hb as <- <-.
      repeat split. now exists data.
    - rewrite send_not_open in Hb by exact Hopen. injection Hb as <- <-.
      repeat split. }
  destruct nonce as [n|].
  - cbn [Py.truthy] in H. destruct (String.eqb n "") eqn:Hn; cbn [negb] in H.
    + destruct user_ids; (eapply Hplain; [| | exact H]; reflexivity).
    + cbn in H. unfold bind in H.
      destruct (socket_open w) eqn:Hopen.
      * rewrite send_open in H by exact Hopen. injection H as <- <-.
        repeat split. destruct user_ids; eexists; (split; [reflexivity|]);
          cbn; now rewrite ?String.eqb_refl.
      * rewrite send_not_open in H by exact Hopen. injection H as <- <-.
        repeat split.
  - destruct user_ids; (eapply Hplain; [| | exact H]; reflexivity).
Qed.

Lemma chunk_guild_registers_iff_nonce_witness :
  exists r w',
    chunk_guild Example.rt 42 "" 0 None (Some "n1") Example.online_world
    = (r, w')
    /\ r = Ret (Some 0%nat)
    /\ chunk_counter (self w') !! "n1" = Some 0
    /\ events w' = [false].
Proof.
  eexists _, _. split; [reflexivity|].
  pose proof (chunk_guild_registers_iff_nonce Example.rt 42 "" 0 None
                (Some "n1") Example.online_world _ _ eq_refl) as H.
  cbv beta zeta in H.
  change (String.eqb "n1" "") with false in H.
  change (socket_open Example.online_world) with true in H.
  cbv iota in H.
  destruct H as (Hcounter & _ & _ & Hevents & Hr & _).
  split; [exact Hr|]. split; [|exact Hevents].
  rewrite Hcounter. reflexivity.
Defined.

(** ** Heartbeat *)

(** C2, what the code does when no ack comes: the first heartbeat that is
    sent and not acknowledged within 10 s ends [heartbeat] with the
    [TimeoutError] of [wait_for], which none of its handlers catches.  There
    is no second attempt, and no reconnect task has been created. *)
Theorem heartbeat_ack_timeout_escapes rt i jitter more later w :
  0 < i ->
  socket_open w = true ->
  heartbeat_received (self w) = false ->
  exists w',
    heartbeat rt (JInt i) jitter
      ({| slept := true; beats := no_ack :: more |} :: later) w
    = (Raise TimeoutError, w')
    /\ wire w' = wire w ++ [send_str (heartbeat_envelope rt w)]
    /\ running_tasks (self w') = running_tasks (self w).
Proof.
  intros Hi Hopen Hack. eexists. split.
  - unfold heartbeat. assert ((i <=? 0) = false) as -> by lia.
    cbn [heartbeat_loop slept beats negb].
    cbn [beat_attempts]. change (1000 <=? 0) with false. cbv iota.
    unfold bind. rewrite send_open by exact Hopen.
    unfold wait_for_heartbeat_received. cbn [self on_wire].
    rewrite Hack. reflexivity.
  - split; reflexivity.
Qed.

Lemma heartbeat_ack_timeout_escapes_witness :
  exists w',
    heartbeat Example.rt (JInt 41250) true
      [{| slept := true; beats := [no_ack; no_ack; no_ack; no_ack; no_ack;
                                   no_ack] |}] Example.online_world
    = (Raise TimeoutError, w')
    /\ wire w' = [send_str (JDict [("op", JInt 1); ("d", JInt 7)])]
    /\ running_tasks (self w') = [].
Proof.
  exact (heartbeat_ack_timeout_escapes Example.rt 41250 true
           [no_ack; no_ack; no_ack; no_ack; no_ack] []
           Example.online_world eq_refl eq_refl eq_refl).
Defined.

(** The handler that does run is the one for [CancelledError]: it retries
    while [beat_attempt <= 5], that is after each of the first six failures,
    and creates the reconnect task on the seventh. *)
Example heartbeat_cancelled_six_times_retries :
  fst (heartbeat Example.rt (JInt 41250) true
         [{| slept := true; beats := replicate 6 cancelled |}]
         Example.online_world) = Pending
  /\ running_tasks
       (self (snd (heartbeat Example.rt (JInt 41250) true
                     [{| slept := true; beats := replicate 6 cancelled |}]
                     Example.online_world))) = [].
Proof. split; reflexivity. Qed.

Example heartbeat_cancelled_seventh_time_reconnects :
  fst (heartbeat Example.rt (JInt 41250) true
         [{| slept := true; beats := replicate 7 cancelled |}]
         Example.online_world) = Ret tt
  /\ running_tasks
       (self (snd (heartbeat Example.rt (JInt 41250) true
                     [{| slept := true; beats := replicate 7 cancelled |}]
                     Example.online_world)))
     = [new_task (coro_connect (JBool true))].
Proof. split; reflexivity. Qed.

(** X20: a heartbeat that cannot be sent for want of an open socket is not
    retried: [heartbeat] creates one task running [connect(reconnect=True)]
    at once and returns, whatever would have followed, and nothing is
    written. *)
Lemma heartbeat_send_refused_reconnects_once rt i jitter b more later w :
  0 < i ->
  socket_open w = false ->
  heartbeat rt (JInt i) jitter
    ({| slept := true; beats := b :: more |} :: later) w
  = (Ret tt, spawn (coro_connect (JBool true)) w).
Proof.
  intros Hi Hclosed. unfold heartbeat. assert ((i <=? 0) = false) as -> by lia.
  cbn [heartbeat_loop slept beats negb beat_attempts].
  change (1000 <=? 0) with false. cbv iota.
  assert (Hsame :
    match b, socket (self w) with
    | socket_closes, Some ws =>
        with_self
          (set_socket (Some {| ws_url_of := ws_url_of ws; closed := true |})) w
    | _, _ => w
    end = w).
  { unfold socket_open in Hclosed. destruct b; try reflexivity.
    destruct w as [s ev wi], s. unfold with_self. cbn in *.
    destruct socket0 as [[u []]|]; [reflexivity | discriminate | reflexivity]. }
  rewrite Hsame. unfold bind. rewrite send_not_open by exact Hclosed.
  reflexivity.
Qed.

(** ** Dispatch order and the stored sequence *)








(** ** The session across [_connect] *)









Lemma sent_between_one w e (P : json -> Prop) :
  (forall envelope, e = send_str envelope -> P envelope) ->
  sent_between w (on_wire e w) P.
Proof.
  intros He. exists [e]. split; [reflexivity|].
  intros envelope [H|[]]. now apply He.
Qed.




Lemma is_False_not_truthy v : Py.is_False v = true -> Py.truthy v = false.
Proof. now destruct v as [| [] | | | |]. Qed.








(** ** Corrupt frames *)





(** ** The identify permit *)

Module PermitFacts.
Import IdentifyPermit.





End PermitFacts.




(** * Further properties of the gateway module *)

(** ** [receive]: reassembly, text frames, the decompression stream *)

Lemma triple_eta {A B C} (p : A * B * C) :
  p = (fst (fst p), snd (fst p), snd p).
Proof. now destruct p as [[? ?] ?]. Qed.

(** X1: a message split over two binary frames is reassembled.  When the
    first part leaves the buffer short of the suffix, reading the second
    part afterwards gives what reading the whole in one frame gives: the
    same outcome and the same shard. *)
Theorem receive_reassembles_split_frame rt w b1 b2 rest :
  socket_open w = true ->
  Py.last_slice 4 (_buffer (self w) ++ b1) <> ZLIB_SUFFIX ->
  receive rt (binary_frame b2 :: rest)
    (snd (fst (receive rt [binary_frame b1] w)))
  = receive rt (binary_frame (b1 ++ b2) :: rest) w.
Proof.
  intros Hopen Hmark. rewrite (receive_partial rt w b1 [] Hopen Hmark).
  cbn [fst snd]. unfold receive, socket_open in *.
  cbn [self with_self socket set_buffer].
  destruct (socket (self w)) as [ws|]; [|discriminate].
  destruct (closed ws); [discriminate|].
  cbn -[Py.last_slice bytes_eqb ZLIB_SUFFIX].
  rewrite <- !app_assoc.
  repeat match goal with
         | |- context [match ?x with _ => _ end] => destruct x
         | |- context [if ?x then _ else _] => destruct x
         end;
    unfold with_self; cbn -[Py.last_slice bytes_eqb ZLIB_SUFFIX];
    rewrite <- ?app_assoc; reflexivity.
Qed.

Lemma receive_reassembles_split_frame_witness :
  fst (fst (receive Example.rt
              [binary_frame (drop 5 (Example.compressed Example.hello_text))]
              (snd (fst (receive Example.rt
                           [binary_frame
                              (take 5 (Example.compressed Example.hello_text))]
                           Example.online_world)))))
  = Ret (Some (GatewayOpcode.hello, JNull, JNull,
               JDict [("heartbeat_interval", JInt 41250)])).
Proof.
  rewrite (receive_reassembles_split_frame Example.rt Example.online_world
             (take 5 (Example.compressed Example.hello_text))
             (drop 5 (Example.compressed Example.hello_text)) []
             eq_refl ltac:(vm_compute; discriminate)).
  vm_compute. reflexivity.
Defined.

(** X2: a text frame is never taken for part of a message.  Whatever was
    buffered is dropped, the decompression stream is left alone, the frame
    is used up, and the outcome is a message or an error, never [None]. *)
Theorem receive_text_frame_resets_buffer rt w text rest r w' rest' :
  socket_open w = true ->
  receive rt (text_frame text :: rest) w = (r, w', rest') ->
  _buffer (self w') = []
  /\ _zlib (self w') = _zlib (self w)
  /\ rest' = rest
  /\ r <> Ret None
  /\ r <> Pending.
Proof.
  intros Hopen H. unfold receive, socket_open in *.
  destruct (socket (self w)) as [ws|]; [|discriminate].
  destruct (closed ws); [discriminate|].
  cbn -[Py.last_slice bytes_eqb ZLIB_SUFFIX] in H.
  rewrite orb_true_r in H. cbn [negb] in H.
  destruct (json_loads rt text) as [e|parsed].
  - destruct (is_MemoryError e); injection H as <- <- <-;
      repeat split; discriminate.
  - destruct (message_of_parsed rt parsed) as [e|m];
      injection H as <- <- <-; repeat split; discriminate.
Qed.

Lemma receive_text_frame_resets_buffer_witness :
  let w :=
    snd (fst (receive Example.rt [binary_frame [x78; x9c]]
                Example.online_world)) in
  _buffer (self w) = [x78; x9c]
  /\ _buffer (self (snd (fst (receive Example.rt
                               [text_frame Example.hello_text] w)))) = [].
Proof.
  intros w. split; [reflexivity|].
  exact (proj1 (receive_text_frame_resets_buffer Example.rt w
                  Example.hello_text [] _ _ _ eq_refl (triple_eta _))).
Defined.

(** X3: the decompression stream outlives the message.  A binary frame that
    completes the buffer feeds the whole buffer to the stream exactly once,
    whatever comes of it, and the buffer is empty afterwards unless the
    decompression itself failed, in which case it still holds the data. *)
Theorem complete_frame_feeds_stream_once rt w b rest r w' rest' :
  socket_open w = true ->
  Py.last_slice 4 (_buffer (self w) ++ b) = ZLIB_SUFFIX ->
  receive rt (binary_frame b :: rest) w = (r, w', rest') ->
  _zlib (self w') = _zlib (self w) ++ [_buffer (self w) ++ b]
  /\ match zlib_decompress rt (_zlib (self w)) (_buffer (self w) ++ b) with
     | inr _ => _buffer (self w') = []
     | inl _ => _buffer (self w') = _buffer (self w) ++ b
     end.
Proof.
  intros Hopen Hmark H. apply bytes_eqb_eq in Hmark.
  unfold receive, socket_open in *.
  destruct (socket (self w)) as [ws|]; [|discriminate].
  destruct (closed ws); [discriminate|].
  cbn -[Py.last_slice bytes_eqb ZLIB_SUFFIX decode_and_load] in H.
  rewrite Hmark in H. cbn [orb negb] in H.
  destruct (zlib_decompress rt (_zlib (self w)) (_buffer (self w) ++ b))
    as [e|out].
  - destruct (is_Exception e); injection H as <- <- <-; now split.
  - destruct (decode_and_load rt (DataBytes out)) as [e|parsed].
    + destruct (is_MemoryError e); injection H as <- <- <-; now split.
    + destruct (message_of_parsed rt parsed); injection H as <- <- <-;
        now split.
Qed.

Lemma complete_frame_feeds_stream_once_witness :
  _zlib (self (snd (fst (receive Example.rt
                           [binary_frame
                              (Example.compressed Example.hello_text)]
                           Example.online_world))))
  = [Example.compressed Example.hello_text].
Proof.
  exact (proj1 (complete_frame_feeds_stream_once Example.rt Example.online_world
                  (Example.compressed Example.hello_text) [] _ _ _
                  eq_refl eq_refl (triple_eta _))).
Defined.

(** ** [messages] and [message_handler]: closes, failures, control opcodes *)

Lemma socket_open_inv w :
  socket_open w = true ->
  exists ws, socket (self w) = Some ws /\ closed ws = false.
Proof.
  unfold socket_open. destruct (socket (self w)) as [ws|]; [|discriminate].
  destruct (closed ws) eqn:Hc; [discriminate|]. eauto.
Qed.



(** X4: what a close frame leads to depends on its code alone.  A code the
    table marks as resumable ends the generator with one reconnect task
    created; a code it marks as fatal comes out as that error, nothing
    created; a code that is not in the table ends the generator with nothing
    created at all.  A CLOSED message is treated by the default of the
    exception class. *)
Theorem messages_on_close_frame rt await_reconnect w code rest :
  socket_open w = true ->
  messages rt await_reconnect
    (Recv {| msg_type := CLOSE; msg_data := DataInt code |} :: rest) w
  = match all_exceptions rt code with
    | Some true => (Ret None, spawn coro_reconnect w, rest)
    | Some false => (Raise (GatewayException false), w, rest)
    | None => (Ret None, w, rest)
    end
  /\ messages rt await_reconnect
       (Recv {| msg_type := CLOSED; msg_data := DataNone |} :: rest) w
     = if default_reconnect rt
       then (Ret None, spawn coro_reconnect w, rest)
       else (Raise (GatewayException false), w, rest).
Proof.
  intros (ws & Hs & Hc)%socket_open_inv.
  unfold messages. cbn [length messages_loop]. unfold receive.
  rewrite Hs, Hc. cbn.
  split.
  - destruct (all_exceptions rt code) as [[]|]; reflexivity.
  - destruct (default_reconnect rt); reflexivity.
Qed.

Lemma messages_on_close_frame_witness :
  messages Example.rt (reconnect Example.rt [])
    [Recv {| msg_type := CLOSE; msg_data := DataInt 4004 |}]
    Example.online_world
  = (Raise (GatewayException false), Example.online_world, [])
  /\ messages Example.rt (reconnect Example.rt [])
       [Recv {| msg_type := CLOSE; msg_data := DataInt 1006 |}]
       Example.online_world
     = (Ret None, Example.online_world, []).
Proof.
  split.
  - exact (proj1 (messages_on_close_frame Example.rt (reconnect Example.rt [])
                    Example.online_world 4004 [] eq_refl)).
  - exact (proj1 (messages_on_close_frame Example.rt (reconnect Example.rt [])
                    Example.online_world 1006 [] eq_refl)).
Defined.







(** ** [close] and [running] *)

(** X8: [close] does not look at its [code], and closing twice is closing
    once.  Afterwards the state is "Closed" and no socket is open; a close
    frame, always with code 0, is written exactly when a socket was open;
    the session is untouched. *)
Theorem close_ignores_code_and_is_idempotent code1 code2 w :
  close code1 w = close code2 w
  /\ close code2 (snd (close code1 w)) = (Ret tt, snd (close code1 w))
  /\ state (self (snd (close code1 w))) = "Closed"
  /\ socket_open (snd (close code1 w)) = false
  /\ wire (snd (close code1 w))
     = wire w ++ (if socket_open w then [ws_close 0] else [])
  /\ session_id (self (snd (close code1 w))) = session_id (self w)
  /\ sequence (self (snd (close code1 w))) = sequence (self w).
Proof.
  split; [reflexivity|].
  destruct w as [s ev wi], s. unfold close, socket_open, with_self. cbn.
  destruct socket0 as [[url []]|], heartbeat_task0, message_task0; cbn;
    rewrite ?app_nil_r; repeat split.
Qed.


(** ** [heartbeat]: what it notices and what it does not *)

Lemma beat_answered rt b more a w :
  socket_open w = true ->
  heartbeat_received (self w) = true ->
  a < 1000 ->
  b = ack_arrives \/ b = no_ack ->
  beat_attempts rt (b :: more) a w
  = (for_done, on_wire (send_str (heartbeat_envelope rt w)) w).
Proof.
  intros Hopen Hack Ha Hb. cbn [beat_attempts].
  assert ((1000 <=? a) = false) as -> by lia.
  assert (Hw : match b, socket (self w) with
               | socket_closes, Some ws =>
                   with_self
                     (set_socket
                        (Some {| ws_url_of := ws_url_of ws; closed := true |}))
                     w
               | _, _ => w
               end = w) by (destruct Hb as [-> | ->]; reflexivity).
  rewrite Hw. unfold bind. rewrite send_open by exact Hopen.
  unfold wait_for_heartbeat_received. cbn [self on_wire]. rewrite Hack.
  destruct Hb as [-> | ->]; reflexivity.
Qed.

(** X10: the ack event is set by the first HEARTBEAT ACK and never cleared,
    so from then on a heartbeat counts as answered whether or not an ack
    comes.  Over any number of such turns the loop sends one heartbeat per
    turn, carrying the stored sequence, creates no task, and goes on. *)
Theorem heartbeat_goes_on_once_acked rt quiet later w :
  socket_open w = true ->
  heartbeat_received (self w) = true ->
  Forall (fun c => slept c = true
                   /\ exists b more, beats c = b :: more
                                     /\ (b = ack_arrives \/ b = no_ack))
         quiet ->
  exists w',
    heartbeat_loop rt (quiet ++ later) w = heartbeat_loop rt later w'
    /\ self w' = self w
    /\ wire w'
       = wire w ++ replicate (length quiet) (send_str (heartbeat_envelope rt w)).
Proof.
  intros Hopen Hack Hquiet. revert w Hopen Hack.
  induction Hquiet as [|c quiet (Hs & b & more & Hb & Hkind) _ IH];
    intros w Hopen Hack.
  - exists w. cbn. now rewrite app_nil_r.
  - cbn [app heartbeat_loop]. rewrite Hs, Hb. cbn [negb].
    rewrite (beat_answered rt b more 0 w Hopen Hack ltac:(lia) Hkind).
    destruct (IH (on_wire (send_str (heartbeat_envelope rt w)) w))
      as (w' & Hrun & Hself & Hwire); [exact Hopen | exact Hack |].
    exists w'. split; [exact Hrun|]. split; [exact Hself|].
    rewrite Hwire. cbn [wire on_wire length replicate].
    rewrite <- app_assoc. reflexivity.
Qed.

Lemma heartbeat_goes_on_once_acked_witness :
  let acked := snd (on_message (GatewayOpcode.heartbeat_ack, JNull, JNull, JNull)
                      Example.online_world) in
  let run :=
    heartbeat_loop Example.rt
      (replicate 3 {| slept := true; beats := [no_ack] |}) acked in
  fst run = Pending
  /\ running_tasks (self (snd run)) = []
  /\ length (wire (snd run)) = 3%nat.
Proof.
  intros acked run.
  destruct (heartbeat_goes_on_once_acked Example.rt
              (replicate 3 {| slept := true; beats := [no_ack] |}) []
              acked eq_refl eq_refl) as (w' & Hrun & Hself & Hwire).
  - cbn [replicate].
    repeat (apply List.Forall_cons;
            [split; [reflexivity
                    | exists no_ack, []; split; [reflexivity | now right]]|]).
    apply List.Forall_nil.
  - subst run. rewrite app_nil_r in Hrun. rewrite Hrun. cbn [heartbeat_loop fst snd].
    rewrite Hself, Hwire. repeat split.
Defined.

Lemma beat_cancelled_retry rt k :
  forall more a w,
    socket_open w = true ->
    0 <= a -> a + Z.of_nat k <= 6 ->
    exists w',
      beat_attempts rt (replicate k cancelled ++ more) a w
      = beat_attempts rt more (a + Z.of_nat k) w'
      /\ self w' = self w
      /\ wire w' = wire w ++ replicate k (send_str (heartbeat_envelope rt w)).
Proof.
  induction k as [|k IH]; intros more a w Hopen Ha Hk.
  - exists w. cbn. rewrite Z.add_0_r, app_nil_r. repeat split.
  - cbn [replicate app beat_attempts].
    assert ((1000 <=? a) = false) as -> by lia.
    unfold bind. rewrite send_open by exact Hopen.
    cbn [wait_for_heartbeat_received is_CancelledError].
    assert ((a <=? 5) = true) as -> by lia.
    destruct (IH more (a + 1)
                (on_wire (send_str
                            (JDict [("op", JInt (opcode_value rt
                                                   GatewayOpcode.heartbeat));
                                    ("d", sequence (self w))])) w))
      as (w' & Hrun & Hself & Hwire); [exact Hopen | lia | lia |].
    exists w'. split.
    + rewrite Hrun. f_equal. lia.
    + split; [exact Hself|]. rewrite Hwire. cbn [wire on_wire].
      rewrite <- app_assoc. reflexivity.
Qed.

(** X11: when the task is cancelled while a heartbeat is out, the heartbeat
    is sent again, up to six times; a seventh cancellation in a row creates
    exactly one task running [connect(reconnect=True)] and ends the loop.
    Seven heartbeats have been written by then.  With six cancellations or
    fewer followed by an ack, no task is created and the loop goes on. *)
Theorem heartbeat_reconnects_on_seventh_cancel rt i jitter more later w :
  0 < i ->
  socket_open w = true ->
  (exists w',
     heartbeat rt (JInt i) jitter
       ({| slept := true; beats := replicate 7 cancelled ++ more |} :: later) w
     = (Ret tt, w')
     /\ running_tasks (self w')
        = running_tasks (self w) ++ [new_task (coro_connect (JBool true))]
     /\ wire w' = wire w ++ replicate 7 (send_str (heartbeat_envelope rt w)))
  /\ (forall k, (k <= 6)%nat ->
      exists w',
        heartbeat rt (JInt i) jitter
          ({| slept := true;
              beats := replicate k cancelled ++ ack_arrives :: more |}
           :: later) w
        = heartbeat_loop rt later w'
        /\ running_tasks (self w') = running_tasks (self w)
        /\ wire w'
           = wire w ++ replicate (S k) (send_str (heartbeat_envelope rt w))).
Proof.
  intros Hi Hopen. unfold heartbeat.
  assert ((i <=? 0) = false) as -> by lia.
  cbn [heartbeat_loop slept beats negb]. split.
  - change (replicate 7 cancelled ++ more)
      with (replicate 6 cancelled ++ cancelled :: more).
    destruct (beat_cancelled_retry rt 6 (cancelled :: more) 0 w Hopen
                ltac:(lia) ltac:(lia)) as (w6 & Hrun & Hself & Hwire).
    rewrite Hrun. cbn [beat_attempts Z.add Z.of_nat Pos.of_succ_nat Pos.succ].
    change (1000 <=? 6) with false. cbv iota.
    assert (Hopen6 : socket_open w6 = true)
      by (unfold socket_open; now rewrite Hself).
    unfold bind. rewrite send_open by exact Hopen6.
    cbn [wait_for_heartbeat_received is_CancelledError].
    change (6 <=? 5) with false. cbv iota.
    eexists. split; [reflexivity|]. cbn. rewrite Hself, Hwire.
    split; [reflexivity|]. rewrite <- app_assoc. reflexivity.
  - intros k Hk.
    destruct (beat_cancelled_retry rt k (ack_arrives :: more) 0 w Hopen
                ltac:(lia) ltac:(lia)) as (wk & Hrun & Hself & Hwire).
    rewrite Hrun. cbn [beat_attempts].
    assert ((1000 <=? 0 + Z.of_nat k) = false) as -> by lia.
    assert (Hopenk : socket_open wk = true)
      by (unfold socket_open; now rewrite Hself).
    unfold bind. rewrite send_open by exact Hopenk.
    unfold wait_for_heartbeat_received. cbn [self on_wire].
    destruct (heartbeat_received (self wk));
      (eexists; split; [reflexivity|]);
      cbn [self on_wire with_self wire set_heartbeat_received running_tasks];
      rewrite ?Hself, Hwire; (split; [reflexivity|]);
      rewrite <- app_assoc;
      change (S k) with (1 + k)%nat;
      rewrite Nat.add_comm, replicate_add; reflexivity.
Qed.

Lemma heartbeat_reconnects_on_seventh_cancel_witness :
  exists w',
    heartbeat Example.rt (JInt 41250) false
      [{| slept := true; beats := replicate 7 cancelled ++ [ack_arrives] |}]
      Example.online_world
    = (Ret tt, w')
    /\ running_tasks (self w') = [new_task (coro_connect (JBool true))]
    /\ length (wire w') = 7%nat.
Proof.
  destruct (proj1 (heartbeat_reconnects_on_seventh_cancel Example.rt 41250
                     false [ack_arrives] [] Example.online_world
                     eq_refl eq_refl)) as (w' & Hrun & Htasks & Hwire).
  exists w'. split; [exact Hrun|]. split; [exact Htasks|].
  rewrite Hwire. reflexivity.
Defined.

Lemma heartbeat_send_refused_reconnects_once_witness :
  heartbeat Example.rt (JInt 41250) true
    [{| slept := true; beats := [ack_arrives] |}] Example.offline_world
  = (Ret tt, spawn (coro_connect (JBool true)) Example.offline_world).
Proof.
  exact (heartbeat_send_refused_reconnects_once Example.rt 41250 true
           ack_arrives [] [] Example.offline_world eq_refl eq_refl).
Defined.

(** ** [_connect]: where it can end, and what it does to the socket *)

(** [receive] writes the buffer and the decompression stream only. *)
Lemma receive_only_buffers rt inbox w r w' rest :
  receive rt inbox w = (r, w', rest) ->
  socket (self w') = socket (self w)
  /\ state (self w') = state (self w)
  /\ connecting (self w') = connecting (self w)
  /\ ready_received (self w') = ready_received (self w)
  /\ heartbeat_task (self w') = heartbeat_task (self w)
  /\ message_task (self w') = message_task (self w)
  /\ ws_url (self w') = ws_url (self w)
  /\ wire w' = wire w.
Proof.
  unfold receive. intros H.
  destruct (socket (self w)) as [ws|] eqn:Hsock; [destruct (closed ws)|];
    [| destruct inbox as [|[[ty d]|e] inbox]; [| destruct ty, d |] |];
    cbn -[Py.last_slice bytes_eqb ZLIB_SUFFIX] in H;
    repeat match type of H with
           | context [match ?x with _ => _ end] => destruct x
           | context [if ?x then _ else _] => destruct x
           end;
    injection H as <- <- <-; cbn; rewrite ?Hsock; repeat split.
Qed.

Lemma replay_app is_open a1 a2 :
  replay is_open (a1 ++ a2)
  = match replay is_open a1 with
    | Some is_open' => replay is_open' a2
    | None => None
    end.
Proof.
  revert is_open. induction a1 as [|[url|envelope|code] a1 IH]; intros [];
    cbn [app replay]; auto.
Qed.

Lemma str_or_again u x : Py.str_or (Some (Py.str_or u x)) x = Py.str_or u x.
Proof.
  unfold Py.str_or. destruct u as [s|].
  - destruct (String.eqb s "") eqn:Hs; [|now rewrite Hs].
    now destruct (String.eqb x "").
  - now destruct (String.eqb x "").
Qed.

Lemma orderly_trans url w1 w2 w3 :
  orderly url w1 w2 -> orderly url w2 w3 -> orderly url w1 w3.
Proof.
  intros (a & Ha & Hra & Hua) (b & Hb & Hrb & Hub). exists (a ++ b).
  split; [now rewrite Hb, Ha, app_assoc|]. split.
  - now rewrite replay_app, Hra.
  - intros url' [H|H]%in_app_or; auto.
Qed.

Lemma _connect_prepare_shape ws_url0 reconnect sleep_time w url reconnect' w1 :
  _connect_prepare ws_url0 reconnect sleep_time w = (url, reconnect', w1) ->
  url = Py.str_or ws_url0 (ws_url (self w))
  /\ ws_url (self w1) = ws_url (self w)
  /\ socket_open w1 = false
  /\ connecting (self w1) = true
  /\ forall any_url, orderly any_url w w1.
Proof.
  unfold _connect_prepare, socket_open, orderly.
  cbn [self with_self socket set_connecting set_buffer set_zlib].
  destruct (socket (self w)) as [[u []]|] eqn:Hsock; cbn [negb closed].
  - destruct (Py.is_False reconnect), (negb (Qeq_bool sleep_time 0));
      intros [= <- <- <-]; cbn; rewrite ?Hsock; repeat split;
      intros any_url; exists []; unfold socket_open; cbn;
      rewrite ?Hsock, app_nil_r;
      (split; [reflexivity | split; [reflexivity | intros ? []]]).
  - unfold close. cbn. rewrite Hsock. cbn.
    destruct (negb (Qeq_bool sleep_time 0));
      intros [= <- <- <-]; cbn; repeat split;
      intros any_url; exists [ws_close 0]; unfold socket_open; cbn;
      rewrite ?Hsock; cbn;
      (split; [reflexivity | split; [reflexivity | intros ? [[=]|[]]]]).
  - destruct (Py.is_False reconnect), (negb (Qeq_bool sleep_time 0));
      intros [= <- <- <-]; cbn; rewrite ?Hsock; repeat split;
      intros any_url; exists []; unfold socket_open; cbn;
      rewrite ?Hsock, app_nil_r;
      (split; [reflexivity | split; [reflexivity | intros ? []]]).
Qed.

Lemma _connect_attempt_shape rt url reconnect e w a w1 :
  socket_open w = false ->
  connecting (self w) = true ->
  _connect_attempt rt url reconnect e w = (a, w1) ->
  ws_url (self w1) = ws_url (self w)
  /\ orderly url w w1
  /\ match a with
     | attempt_over (Ret _) => reached_ready w1 \/ left_at_hello w1
     | _ => connecting (self w1) = true
     end.
Proof.
  intros Hclosed Hconn. unfold _connect_attempt.
  destruct e as [e|inbox permit ready].
  { destruct (is_Exception e); intros [= <- <-];
      (split; [reflexivity|]);
      (split; [exists []; rewrite app_nil_r; repeat split; intros ? []|]);
      exact Hconn. }
  match goal with
  | |- context [receive rt inbox ?w0] =>
      destruct (receive rt inbox w0) as [[r0 w2] rest] eqn:Hrecv
  end.
  apply receive_only_buffers in Hrecv
    as (Hsock & Hstate & Hc & Hrr & Hhb & Hmt & Hurl & Hwire).
  cbn in Hsock, Hstate, Hc, Hrr, Hhb, Hmt, Hurl, Hwire.
  assert (Hopen2 : socket_open w2 = true)
    by (unfold socket_open; now rewrite Hsock).
  assert (Hquiet : forall w3 : World,
            socket (self w3) = socket (self w2) ->
            wire w3 = wire w2 -> orderly url w w3).
  { intros w3 Hs3 Hw3. exists [ws_connect url]. split; [congruence|].
    rewrite Hclosed. cbn. unfold socket_open. rewrite Hs3, Hsock. cbn.
    split; [reflexivity|]. now intros ? [[= <-]|[]]. }
  assert (Hsent : forall (w3 : World) envelope,
            socket (self w3) = socket (self w2) ->
            wire w3 = wire w2 ++ [send_str envelope] -> orderly url w w3).
  { intros w3 envelope Hs3 Hw3. exists [ws_connect url; send_str envelope].
    split; [rewrite Hw3, Hwire; now rewrite <- app_assoc|].
    rewrite Hclosed. cbn. unfold socket_open. rewrite Hs3, Hsock. cbn.
    split; [reflexivity|]. now intros ? [[= <-]|[[=]|[]]]. }
  destruct r0 as [[[[[op t] s] data]|]|e|].
  2: { intros [= <- <-]. split; [exact Hurl|]. split; [apply Hquiet; reflexivity|].
       right. repeat split; [exact Hstate | congruence | exact Hopen2]. }
  2: { destruct (is_Exception e); intros [= <- <-];
         (split; [exact Hurl|]); (split; [apply Hquiet; reflexivity|]); congruence. }
  2: { intros [= <- <-]. split; [exact Hurl|]. split; [apply Hquiet; reflexivity|].
       congruence. }
  destruct (heartbeat_interval_of data) as [e|hi].
  { intros [= <- <-]. split; [exact Hurl|]. split; [apply Hquiet; reflexivity|].
    congruence. }
  destruct (negb permit).
  { intros [= <- <-]. split; [exact Hurl|]. split; [apply Hquiet; reflexivity|].
    cbn. congruence. }
  destruct (Py.truthy reconnect); unfold resume, identify, send;
    cbn [self with_self socket set_heartbeat_task set_ready_received
         set_message_task set_state];
    rewrite Hsock; cbn [closed];
    destruct ready; intros [= <- <-];
    (split; [exact Hurl|]);
    (split; [eapply Hsent; reflexivity|]);
    cbn;
    try congruence;
    left; unfold reached_ready, socket_open; cbn; rewrite Hsock; cbn;
    repeat split; eauto.
Qed.

Lemma _connect_shape rt env :
  forall ws_url0 reconnect attempt sleep_time w r w',
    _connect rt env ws_url0 reconnect attempt sleep_time w = (r, w') ->
    ws_url (self w') = ws_url (self w)
    /\ orderly (Py.str_or ws_url0 (ws_url (self w))) w w'
    /\ match r with
       | Ret _ => reached_ready w' \/ left_at_hello w'
       | _ => connecting (self w') = true
       end.
Proof.
  induction env as [|e env IH];
    intros ws_url0 reconnect attempt sleep_time w r w' H;
    cbn [_connect] in H;
    destruct (_connect_prepare ws_url0 reconnect sleep_time w)
      as [[url rc] w1] eqn:Hprep;
    apply _connect_prepare_shape in Hprep
      as (-> & Hurl1 & Hclosed1 & Hconn1 & Hord1).
  - injection H as <- <-. auto.
  - destruct (_connect_attempt rt _ rc e w1) as [a w2] eqn:Hatt.
    apply (_connect_attempt_shape rt _ rc e w1 a w2 Hclosed1 Hconn1) in Hatt
      as (Hurl2 & Hord2 & Hend).
    pose proof (orderly_trans _ _ _ _ (Hord1 _) Hord2) as Hord12.
    destruct a as [|r0].
    + apply IH in H as (Hurl3 & Hord3 & Hend3).
      rewrite Hurl2, Hurl1, str_or_again in Hord3.
      split; [congruence|]. split; [|exact Hend3].
      eapply orderly_trans; eassumption.
    + injection H as <- <-. split; [congruence|]. split; [exact Hord12|].
      destruct r0; auto.
Qed.




Lemma close_orderly code w w1 :
  close code w = (Ret tt, w1) ->
  ws_url (self w1) = ws_url (self w)
  /\ resume_url (self w1) = resume_url (self w)
  /\ forall any_url, orderly any_url w w1.
Proof.
  unfold close, orderly, socket_open. intros [= <-]. cbn.
  destruct (socket (self w)) as [[u []]|] eqn:Hsock; cbn; rewrite ?Hsock;
    (split; [reflexivity|]); (split; [reflexivity|]); intros any_url.
  - exists []. rewrite app_nil_r. cbn.
    split; [reflexivity | split; [reflexivity | intros ? []]].
  - exists [ws_close 0]. cbn.
    split; [reflexivity | split; [reflexivity | intros ? [[=]|[]]]].
  - exists []. rewrite app_nil_r. cbn.
    split; [reflexivity | split; [reflexivity | intros ? []]].
Qed.

Lemma reconnect_orderly rt env w r w' :
  reconnect rt env w = (r, w') ->
  orderly (Py.str_or (Some (resume_url (self w))) (ws_url (self w))) w w'.
Proof.
  unfold reconnect, bind, connect. intros H.
  destruct (close 0 (with_self (set_connecting true) w)) as [[[]| |] wc] eqn:Hc;
    try (unfold close in Hc; discriminate).
  apply close_orderly in Hc as (Hurl & _ & Hord).
  apply _connect_shape in H as (_ & Hord2 & _).
  rewrite Hurl in Hord2. cbn in Hord2.
  specialize (Hord (Py.str_or (Some (resume_url (self w))) (ws_url (self w)))).
  destruct Hord as (a & Ha & Hra & Hua).
  eapply orderly_trans; [|exact Hord2].
  exists a. repeat split; assumption.
Qed.

(** X13: one socket at a time.  Over any run of [_connect], and of
    [reconnect], whatever the number of attempts, a websocket is opened only
    when none is open, closed only when one is open, and an envelope is
    written only on an open one; whether a socket is open at the end is
    what the record says. *)
Theorem _connect_one_socket_at_a_time rt env w :
  (forall ws_url0 reconnect attempt sleep_time r w',
     _connect rt env ws_url0 reconnect attempt sleep_time w = (r, w') ->
     exists added,
       wire w' = wire w ++ added
       /\ replay (socket_open w) added = Some (socket_open w'))
  /\ (forall r w',
        GatewayShard.reconnect rt env w = (r, w') ->
        exists added,
          wire w' = wire w ++ added
          /\ replay (socket_open w) added = Some (socket_open w')).
Proof.
  split.
  - intros ws_url0 rc attempt sleep_time r w' H.
    apply _connect_shape in H as (_ & (added & Hw & Hr & _) & _). eauto.
  - intros r w' H.
    apply reconnect_orderly in H as (added & Hw & Hr & _). eauto.
Qed.

(** X14: every attempt of one run connects to the same address.  [_connect]
    opens its websockets on the [ws_url] it was given, or on the shard's own
    when it was given none or an empty one, and keeps to it over the
    retries; [reconnect] opens them on the shard's [resume_url]. *)
Theorem _connect_keeps_its_url rt env w :
  (forall ws_url0 reconnect attempt sleep_time r w',
     _connect rt env ws_url0 reconnect attempt sleep_time w = (r, w') ->
     exists added,
       wire w' = wire w ++ added
       /\ forall url, In (ws_connect url) added ->
            url = Py.str_or ws_url0 (ws_url (self w)))
  /\ (forall r w',
        GatewayShard.reconnect rt env w = (r, w') ->
        exists added,
          wire w' = wire w ++ added
          /\ forall url, In (ws_connect url) added ->
               url = Py.str_or (Some (resume_url (self w))) (ws_url (self w))).
Proof.
  split.
  - intros ws_url0 rc attempt sleep_time r w' H.
    apply _connect_shape in H as (_ & (added & Hw & _ & Hu) & _). eauto.
  - intros r w' H.
    apply reconnect_orderly in H as (added & Hw & _ & Hu). eauto.
Qed.

Lemma _connect_one_socket_at_a_time_witness :
  let run :=
    GatewayShard.reconnect Example.rt
      [ws_connect_raises OSError;
       ws_connected [text_frame Example.hello_text] true true]
      Example.online_world in
  exists added,
    wire (snd run) = wire Example.online_world ++ added
    /\ replay true added = Some (socket_open (snd run)).
Proof.
  intros run.
  exact (proj2 (_connect_one_socket_at_a_time Example.rt
                  [ws_connect_raises OSError;
                   ws_connected [text_frame Example.hello_text] true true]
                  Example.online_world)
           (fst run) (snd run) (surjective_pairing run)).
Defined.

Lemma _connect_keeps_its_url_witness :
  let run :=
    _connect Example.rt
      [ws_connect_raises OSError;
       ws_connected [] true true;
       ws_connected [text_frame Example.hello_text] true true]
      (Some "") (JBool false) 1 0%Q Example.fresh_world in
  exists added,
    wire (snd run) = wire Example.fresh_world ++ added
    /\ forall url, In (ws_connect url) added ->
         url = ws_url Example.fresh.
Proof.
  intros run.
  exact (proj1 (_connect_keeps_its_url Example.rt
                  [ws_connect_raises OSError;
                   ws_connected [] true true;
                   ws_connected [text_frame Example.hello_text] true true]
                  Example.fresh_world)
           (Some "") (JBool false) 1 0%Q
           (fst run) (snd run) (surjective_pairing run)).
Defined.

(** ** Commands *)

(** X15: [change_presence] never raises.  Before READY, or without an open
    socket, it returns without writing anything; otherwise it writes one
    PRESENCE envelope with the activities, the status, [since] null and
    [afk] false.  The shard itself is not changed either way. *)
Theorem change_presence_silent_until_ready rt activities status w :
  change_presence rt activities status w
  = (Ret tt,
     if socket_open w && ready_received (self w)
     then on_wire (send_str (presence_envelope rt activities status)) w
     else w).
Proof.
  unfold change_presence.
  destruct (socket_open w) eqn:Hopen; [|reflexivity].
  destruct (ready_received (self w)); [|reflexivity].
  cbn [negb orb andb]. now rewrite send_open.
Qed.

(** X16: what REQUEST_MEMBERS carries.  The guild id goes out as a string
    and the limit as given.  With [user_ids] (an empty list included) the
    ids go out as strings and the query is left out; only without
    [user_ids] is the query sent. *)
Theorem chunk_guild_query_or_user_ids
    rt guild_id query limit user_ids nonce w :
  socket_open w = true ->
  exists data,
    wire (snd (chunk_guild rt guild_id query limit user_ids nonce w))
    = wire w ++ [send_str
                   (JDict [("op", JInt (opcode_value rt
                                          GatewayOpcode.request_members));
                           ("d", JDict data)])]
    /\ Py.assoc "guild_id" data = Some (JStr (str_of_int guild_id))
    /\ Py.assoc "limit" data = Some (JInt limit)
    /\ Py.assoc "query" data
       = match user_ids with
         | None => Some (JStr query)
         | Some _ => None
         end
    /\ Py.assoc "user_ids" data
       = match user_ids with
         | None => None
         | Some ids => Some (JList (map (fun i => JStr (str_of_int i)) ids))
         end.
Proof.
  intros Hopen. unfold chunk_guild.
  destruct nonce as [n|];
    [cbn [Py.truthy]; destruct (String.eqb n ""); cbn [negb]|];
    destruct user_ids as [ids|]; cbn -[send]; unfold bind;
    rewrite send_open by exact Hopen; cbn;
    eexists; (split; [reflexivity|]); repeat split.
Qed.

Lemma chunk_guild_query_or_user_ids_witness :
  exists data,
    wire (snd (chunk_guild Example.rt 42 "abc" 5 (Some []) None
                 Example.online_world))
    = wire Example.online_world
      ++ [send_str
            (JDict [("op", JInt (opcode_value Example.rt
                                   GatewayOpcode.request_members));
                    ("d", JDict data)])]
    /\ Py.assoc "query" data = None
    /\ Py.assoc "user_ids" data = Some (JList []).
Proof.
  destruct (chunk_guild_query_or_user_ids Example.rt 42 "abc" 5 (Some []) None
              Example.online_world eq_refl)
    as (data & Hwire & _ & _ & Hquery & Hids).
  exists data. split; [exact Hwire|]. split; [exact Hquery | exact Hids].
Defined.

(** ** The connection *)

(** X17: [connect] with a list of shard ids creates a shard for each id of
    the list and for no other number: the shards the connection had before
    are dropped, an id listed twice gives one shard, and an id outside
    [0, shard_count) is taken as it is.  Every shard gets the connection's
    token and address, its own id, the shard count and the intents, and the
    identify semaphore starts with [max_concurrency] permits. *)
Theorem connect_creates_listed_shards
    (c0 : GatewayConnection.t) id ids shard_count max_concurrency intents :
  0 <= max_concurrency ->
  exists c,
    GatewayConnection.connect c0 (Some (id :: ids)) shard_count
      max_concurrency intents
    = inr c
    /\ (forall i,
          GatewayConnection.shards c !! i
          = if bool_decide (i ∈ id :: ids)
            then Some (init (GatewayConnection.token c0)
                            (GatewayConnection.ws_base c0) i shard_count
                            intents)
            else None)
    /\ GatewayConnection.identify_semaphore c
       = Some {| GatewayConnection._value := max_concurrency |}
    /\ GatewayConnection.shard_count c = shard_count
    /\ GatewayConnection.intents c = intents.
Proof.
  intros Hmax. unfold GatewayConnection.connect.
  assert ((max_concurrency <? 0) = false) as -> by lia.
  eexists. split; [reflexivity|]. repeat split.
  intros i. cbn [GatewayConnection.shards GatewayConnection.shard_ids_or_range].
  now rewrite foldl_insert_lookup, lookup_empty.
Qed.

Lemma connect_creates_listed_shards_witness :
  exists c,
    GatewayConnection.connect
      (fst (GatewayConnection.close Example.manager))
      (Some [7; 3; 7]) 2 1 513
    = inr c
    /\ GatewayConnection.shards c !! 7
       = Some (init (GatewayConnection.token Example.manager)
                 (GatewayConnection.ws_base Example.manager) 7 2 513)
    /\ GatewayConnection.shards c !! 0 = None.
Proof.
  destruct (connect_creates_listed_shards
              (fst (GatewayConnection.close Example.manager))
              7 [3; 7] 2 1 513 ltac:(lia))
    as (c & Hc & Hshards & _).
  exists c. split; [exact Hc|].
  split; [exact (Hshards 7) | exact (Hshards 0)].
Defined.

Lemma any_running_false (c : GatewayConnection.t) :
  GatewayConnection.any_running c = false
  <-> forall i s, GatewayConnection.shards c !! i = Some s -> running s = false.
Proof.
  unfold GatewayConnection.any_running. split.
  - intros Hnone i s Hi. destruct (running s) eqn:Hrun; [|reflexivity].
    rewrite <- Hnone. symmetry. apply existsb_exists. exists s.
    split; [|exact Hrun].
    apply list_elem_of_In, list_elem_of_fmap. exists (i, s).
    split; [reflexivity|]. now apply elem_of_map_to_list.
  - intros Hall.
    destruct (existsb running (snd <$> map_to_list (GatewayConnection.shards c)))
      eqn:Hex; [|reflexivity].
    apply existsb_exists in Hex as (s & Hin & Hrun).
    apply list_elem_of_In, list_elem_of_fmap in Hin as ([i s'] & -> & Hin).
    apply elem_of_map_to_list in Hin. cbn in Hrun.
    now rewrite (Hall i s' Hin) in Hrun.
Qed.

(** X18: [wait] returns exactly when one evaluation of its condition finds
    no shard running, a connection without shards included, and keeps
    sleeping exactly when every evaluation finds a running shard.  It never
    raises. *)
Theorem wait_returns_when_no_shard_runs (polls : list GatewayConnection.t) :
  (GatewayConnection.wait polls = Ret tt
   <-> Exists (fun c => forall i s,
                 GatewayConnection.shards c !! i = Some s -> running s = false)
         polls)
  /\ (GatewayConnection.wait polls = Pending
      <-> Forall (fun c => exists i s,
                    GatewayConnection.shards c !! i = Some s
                    /\ running s = true)
            polls)
  /\ (forall e, GatewayConnection.wait polls <> Raise e).
Proof.
  induction polls as [|c polls (IHret & IHpend & IHraise)].
  - cbn. split; [|split].
    + split; [discriminate | intros H; inversion H].
    + split; [constructor | reflexivity].
    + discriminate.
  - cbn [GatewayConnection.wait].
    destruct (GatewayConnection.any_running c) eqn:Hany.
    + assert (Hsome : exists i s,
                 GatewayConnection.shards c !! i = Some s /\ running s = true).
      { unfold GatewayConnection.any_running in Hany.
        apply existsb_exists in Hany as (s & Hin & Hrun).
        apply list_elem_of_In, list_elem_of_fmap in Hin as ([i s'] & -> & Hin).
        apply elem_of_map_to_list in Hin. now exists i, s'. }
      split; [|split].
      * rewrite IHret. split; [now right|].
        intros H. inversion H as [? ? Hc|]; [|assumption].
        destruct Hsome as (i & s & Hi & Hrun).
        rewrite (Hc i s Hi) in Hrun. discriminate.
      * rewrite IHpend. split; [now constructor|].
        intros H. now inversion H.
      * exact IHraise.
    + pose proof (proj1 (any_running_false c) Hany) as Hall.
      clear Hany. rename Hall into Hany. split; [|split].
      * split; [now left | reflexivity].
      * split; [discriminate|].
        intros H. inversion H as [|? ? (i & s & Hi & Hrun)]; subst.
        rewrite (Hany i s Hi) in Hrun. discriminate.
      * discriminate.
Qed.

Lemma close_shard_again s :
  GatewayConnection.close_shard (fst (GatewayConnection.close_shard s))
  = (fst (GatewayConnection.close_shard s), []).
Proof.
  destruct s. unfold GatewayConnection.close_shard, close, with_self. cbn.
  destruct socket0 as [[url []]|], heartbeat_task0 as [[]|],
    message_task0 as [[]|]; reflexivity.
Qed.

(** X19: [GatewayConnection.close] closes every shard and drops none.
    Afterwards each shard is in state "Closed" with no open socket; a close
    frame, with code 0, went out on exactly the sockets that were open; and
    closing the connection a second time changes nothing and writes
    nothing. *)
Theorem connection_close_closes_every_shard (c : GatewayConnection.t) :
  (forall i,
     match GatewayConnection.shards c !! i with
     | Some s =>
         exists s',
           GatewayConnection.shards (fst (GatewayConnection.close c)) !! i
           = Some s'
           /\ state s' = "Closed"
           /\ (forall ws, socket s' = Some ws -> closed ws = true)
           /\ snd (GatewayConnection.close c) !! i
              = Some (match socket s with
                      | Some ws => if closed ws then [] else [ws_close 0]
                      | None => []
                      end)
     | None =>
         GatewayConnection.shards (fst (GatewayConnection.close c)) !! i = None
         /\ snd (GatewayConnection.close c) !! i = None
     end)
  /\ GatewayConnection.close (fst (GatewayConnection.close c))
     = (fst (GatewayConnection.close c),
        (fun _ => []) <$> GatewayConnection.shards c).
Proof.
  split.
  - intros i. unfold GatewayConnection.close. cbn [fst snd GatewayConnection.shards].
    rewrite !lookup_fmap.
    destruct (GatewayConnection.shards c !! i) as [s|]; cbn; [|now split].
    eexists. split; [reflexivity|].
    destruct s. unfold GatewayConnection.close_shard, close, with_self. cbn.
    destruct socket0 as [[url []]|]; cbn; repeat split;
      intros ws [= <-]; reflexivity.
  - unfold GatewayConnection.close.
    cbn [fst snd GatewayConnection.shards GatewayConnection.token
         GatewayConnection.ws_base GatewayConnection.intents
         GatewayConnection.shard_count GatewayConnection.identify_semaphore
         GatewayConnection.connect_semaphore].
    rewrite <- !map_fmap_compose. f_equal.
    + f_equal. apply map_fmap_ext. intros i s _. unfold compose.
      now rewrite close_shard_again.
    + apply map_fmap_ext. intros i s _. unfold compose.
      now rewrite close_shard_again.
Qed.
